(** * agrisig_data: the parcel dashboard script ([app.py])

    A shallow embedding of the Streamlit script: the collection held in
    [st.session_state], the persisted GeoJSON file, the memo of
    [load_data], one run of the script per user interaction with every
    place where the run can stop, and the page that a completed run
    renders.

    A GeoDataFrame is its list of rows in order; a frame read from a file
    has the five columns the script names exactly when it has a row. Row
    labels are positions, as [read_file] and
    [concat(..., ignore_index=True)] produce them. The page furniture and
    the map viewport do not depend on the data and are left out. *)

From Stdlib Require Import QArith.
From stdpp Require Import base option list strings gmap sorting.

Open Scope string_scope.
Open Scope list_scope.

(** ** Numbers

    [superficie], [rendement_kg_ha] and the coordinates are float64 or
    int64 values. What pandas, numpy, Python and the GeoJSON writer
    compute from them is theirs: the script is embedded over any carrier
    that offers these operations, and nothing is assumed about them. *)

Class Numeric (num : Type) := {
  lit          : Q -> num;          (* a numeric literal of the script *)
  series_sum   : list num -> num;   (* [Series.sum()] *)
  series_mean  : list num -> num;   (* [.mean()] of one group *)
  round2       : num -> num;        (* [round(x, 2)] *)
  stored       : num -> num;        (* an attribute as read back from the
                                       file it was written to *)
  stored_coord : num -> num         (* a coordinate, likewise *)
}.

Section Dashboard.

Context {num : Type} {NUM : Numeric num}.

(** ** Data model *)

(** A polygon given by its exterior ring, as [shapely.geometry.Polygon]
    receives it. *)
Inductive Geometry :=
  | Polygon (shell : list (num * num)).

(** The vertices of a closed ring: the closing point repeats the first. *)
Definition vertices (g : Geometry) : list (num * num) :=
  match g with
  | Polygon shell => removelast shell
  end.

(** One row of the GeoDataFrame, with the columns of [new_row]. *)
Record Row := mkRow {
  culture         : string;
  region          : string;
  superficie      : num;
  rendement_kg_ha : num;
  geometry        : Geometry
}.

(** A GeoDataFrame: its coordinate reference system and its rows. *)
Record GeoDataFrame := mkGdf {
  crs  : string;
  rows : list Row
}.

(** [len(gdf)] *)
Definition len (rs : list Row) : nat := length rs.

(** [gdf.empty] *)
Definition gdf_empty (rs : list Row) : bool :=
  match rs with
  | [] => true
  | _ :: _ => false
  end.

(** [Series.unique()]: the distinct values in order of first appearance. *)
Fixpoint unique_from (seen : list string) (xs : list string) : list string :=
  match xs with
  | [] => []
  | x :: xs' =>
      if bool_decide (x ∈ seen) then unique_from seen xs'
      else x :: unique_from (x :: seen) xs'
  end.

Definition unique (xs : list string) : list string := unique_from [] xs.

(** [Series.isin(values)]: a boolean Series, one entry per row. *)
Definition isin (col : list string) (values : list string) : list bool :=
  map (fun v => bool_decide (v ∈ values)) col.

(** [mask1 & mask2] on boolean Series of the same frame. *)
Fixpoint and_series (m1 m2 : list bool) : list bool :=
  match m1, m2 with
  | b1 :: m1', b2 :: m2' => (b1 && b2) :: and_series m1' m2'
  | _, _ => []
  end.

(** [gdf[mask]]: the rows whose mask entry is true. *)
Fixpoint select (rs : list Row) (mask : list bool) : list Row :=
  match rs, mask with
  | r :: rs', b :: mask' =>
      if b then r :: select rs' mask' else select rs' mask'
  | _, _ => []
  end.

(** Lines 75-78: [filtered_gdf]. *)
Definition filtered_gdf (data : list Row) (regions cultures : list string)
  : list Row :=
  select data
    (and_series (isin (map region data) regions)
                (isin (map culture data) cultures)).

(** ** Summary statistics *)

(** Line 90: [round(filtered_gdf['superficie'].sum(), 2)]. *)
Definition total_area (view : list Row) : num :=
  round2 (series_sum (map superficie view)).

(** The order in which [groupby] lists its keys ([sort=True]). *)
Definition str_le (a b : string) : Prop := String.leb a b.

Definition group (k : string) (view : list Row) : list Row :=
  filter (fun r => culture r = k) view.

(** Line 95:
    [filtered_gdf.groupby("culture")["rendement_kg_ha"].mean().reset_index()],
    one line per culture, the keys in increasing order. *)
Definition groupby_mean (view : list Row) : list (string * num) :=
  map (fun k => (k, series_mean (map rendement_kg_ha (group k view))))
      (merge_sort str_le (unique (map culture view))).

(** ** Plain tables: [drop(columns=...)] and [to_csv] *)

Inductive Cell :=
  | CText (s : string)
  | CNum (x : num)
  | CGeom (g : Geometry).

Record DataFrame := mkFrame {
  columns : list string;
  body    : list (list Cell)
}.

Definition gdf_columns : list string :=
  ["culture"; "region"; "superficie"; "rendement_kg_ha"; "geometry"].

Definition row_cells (r : Row) : list Cell :=
  [CText (culture r); CText (region r); CNum (superficie r);
   CNum (rendement_kg_ha r); CGeom (geometry r)].

(** The filtered GeoDataFrame seen as a table with named columns. *)
Definition as_frame (rs : list Row) : DataFrame :=
  {| columns := gdf_columns; body := map row_cells rs |}.

(** Position of a column label. *)
Fixpoint column_index (name : string) (cols : list string) : option nat :=
  match cols with
  | [] => None
  | c :: cols' =>
      if bool_decide (c = name) then Some 0
      else S <$> column_index name cols'
  end.

(** [df.drop(columns=name)] on a frame whose labels are distinct; [None]
    stands for pandas' [KeyError]. *)
Definition drop_columns (name : string) (df : DataFrame) : option DataFrame :=
  i ← column_index name (columns df);
  Some {| columns := delete i (columns df);
          body := map (delete i) (body df) |}.

(** [df.to_csv(index=False)]: the header record, then one record per
    row; the row labels are left out. *)
Definition to_csv (df : DataFrame) : list (list Cell) :=
  map CText (columns df) :: body df.

(** [pd.concat([a, b], ignore_index=True)]: the rows of [a], then those of
    [b], renumbered from 0; the frame keeps the reference system of [a]. *)
Definition concat (a b : GeoDataFrame) : GeoDataFrame :=
  {| crs := crs a; rows := rows a ++ rows b |}.

(** ** What a file keeps of a frame

    Writing a frame as GeoJSON and reading it back gives the same records
    in the same order with the same texts; each number and each coordinate
    comes back as the writer stored it, which need not be the value that
    was written. *)

Definition stored_geometry (g : Geometry) : Geometry :=
  match g with
  | Polygon shell =>
      Polygon (map (fun p => (stored_coord p.1, stored_coord p.2)) shell)
  end.

Definition stored_row (r : Row) : Row :=
  {| culture := culture r;
     region := region r;
     superficie := stored (superficie r);
     rendement_kg_ha := stored (rendement_kg_ha r);
     geometry := stored_geometry (geometry r) |}.

Definition stored_frame (d : GeoDataFrame) : GeoDataFrame :=
  {| crs := crs d; rows := map stored_row (rows d) |}.

(** ** The world of the script

    The server process holds the GeoJSON file, the logo, and the value
    memoised by [@st.cache_data] for [load_data]; they are shared by all
    sessions. Each browser session has its own [st.session_state], a
    dictionary. *)

Record Server := mkServer {
  fs       : option GeoDataFrame;  (* what reading
                                      data/parcelles_multiculture.geojson
                                      returns; [None]: missing or unreadable *)
  cache    : option GeoDataFrame;  (* the memoised result of [load_data] *)
  logo     : bool;                 (* images/logo.png can be opened *)
  writable : bool                  (* the data file can be written *)
}.

Inductive Error :=
  | DataUnavailable              (* [gpd.read_file] raised *)
  | KeyError (key : string)      (* no such session entry or column *)
  | LogoUnavailable              (* [Image.open] raised *)
  | WriteFailed                  (* [gdf.to_file] raised *)
  | IndexError.                  (* [m.add_gdf] raised on an empty frame *)

(** A run either completes with a value or stops at an exception; the
    state reached so far is kept in both cases. *)
Inductive Result (A : Type) :=
  | Ok (a : A) (ss : gmap string GeoDataFrame) (srv : Server)
  | Raise (e : Error) (ss : gmap string GeoDataFrame) (srv : Server).
Global Arguments Ok {A} a ss srv.
Global Arguments Raise {A} e ss srv.

Definition Script (A : Type) : Type :=
  gmap string GeoDataFrame -> Server -> Result A.

Definition pure {A} (a : A) : Script A := fun ss srv => Ok a ss srv.

Definition bind {A B} (m : Script A) (k : A -> Script B) : Script B :=
  fun ss srv =>
    match m ss srv with
    | Ok a ss' srv' => k a ss' srv'
    | Raise e ss' srv' => Raise e ss' srv'
    end.

Definition raise {A} (e : Error) : Script A := fun ss srv => Raise e ss srv.

Local Notation "'let*' x := m 'in' k" := (bind m (fun x => k))
  (at level 10, x name, m at level 100, k at level 200, only parsing).
Local Notation "m ;;; k" := (bind m (fun _ => k))
  (at level 100, k at level 200, right associativity, only parsing).

(** [key in st.session_state] *)
Definition session_contains (key : string) : Script bool :=
  fun ss srv => Ok (bool_decide (is_Some (ss !! key))) ss srv.

(** [st.session_state.key] *)
Definition session_get (key : string) : Script GeoDataFrame :=
  fun ss srv =>
    match ss !! key with
    | Some d => Ok d ss srv
    | None => Raise (KeyError key) ss srv
    end.

(** [st.session_state.key = d] *)
Definition session_set (key : string) (d : GeoDataFrame) : Script unit :=
  fun ss srv => Ok tt (<[key := d]> ss) srv.

(** [gpd.read_file("data/parcelles_multiculture.geojson")] *)
Definition read_file : Script GeoDataFrame :=
  fun ss srv =>
    match fs srv with
    | Some d => Ok d ss srv
    | None => Raise DataUnavailable ss srv
    end.

(** [gdf.to_file(filepath, driver="GeoJSON")]: the file is replaced as a
    whole; a later read returns the frame as the writer stored it. *)
Definition to_file (gdf : GeoDataFrame) : Script unit :=
  fun ss srv =>
    if writable srv
    then Ok tt ss {| fs := Some (stored_frame gdf); cache := cache srv;
                     logo := logo srv; writable := writable srv |}
    else Raise WriteFailed ss srv.

(** Lines 14-15. *)
Definition save_data (gdf : GeoDataFrame) : Script unit := to_file gdf.

(** Lines 18-20: [load_data] under [@st.cache_data]. The first completed
    call reads the file and memoises the frame; every later call, in any
    session of the same server, returns the memoised frame without
    reading the file. *)
Definition load_data : Script GeoDataFrame :=
  fun ss srv =>
    match cache srv with
    | Some d => Ok d ss srv
    | None =>
        match read_file ss srv with
        | Ok d ss' srv' =>
            Ok d ss' {| fs := fs srv'; cache := Some d;
                        logo := logo srv'; writable := writable srv' |}
        | Raise e ss' srv' => Raise e ss' srv'
        end
    end.

(** Line 26: [Image.open("images/logo.png")]. *)
Definition image_open : Script unit :=
  fun ss srv =>
    if logo srv then Ok tt ss srv else Raise LogoUnavailable ss srv.

(** [gdf[name]]: the column, when the frame has it. A frame without rows
    was read from a file without features and has no attribute column. *)
Definition getitem {A} (name : string) (column : Row -> A)
    (gdf : GeoDataFrame) : Script (list A) :=
  match rows gdf with
  | [] => raise (KeyError name)
  | _ :: _ => pure (map column (rows gdf))
  end.

(** Line 83: [m.add_gdf(gdf, ...)], which fails on a frame without rows. *)
Definition add_gdf (view : list Row) : Script unit :=
  if gdf_empty view then raise IndexError else pure tt.

(** ** Widgets *)

(** What the user has entered when the script runs. A multiselect that
    the user has not touched is [None] and yields its default. The number
    inputs keep to their minimum in the browser; the script takes whatever
    number they hand over. *)
Record Widgets := mkWidgets {
  regions_ui     : option (list string);
  cultures_ui    : option (list string);
  culture_new    : string;
  region_new     : string;
  superficie_new : num;
  rendement_new  : num;
  submit         : bool
}.

(** [st.sidebar.multiselect(label, options, default)]: the default until
    the user changes the selection, then the chosen values; only values
    listed in [options] can be chosen. *)
Definition multiselect (options default : list string)
    (ui : option (list string)) : list string :=
  match ui with
  | None => default
  | Some chosen => filter (fun v => v ∈ options) chosen
  end.

(** Line 56. *)
Definition coords_demo : list (num * num) :=
  [(lit (-13.7), lit 9.5); (lit (-13.6), lit 9.5); (lit (-13.6), lit 9.6);
   (lit (-13.7), lit 9.6); (lit (-13.7), lit 9.5)].

(** ** The rendered page *)

Record Page := mkPage {
  region_options    : list string;
  region_selected   : list string;
  culture_options   : list string;
  culture_selected  : list string;
  success           : option (string * string * num * num);
  map_layer         : list Row;
  metric_count      : nat;
  metric_area       : num;
  chart             : option (list (string * num));
  warning           : option string;
  table             : DataFrame;
  download          : list (list Cell)
}.

Definition no_data_warning : string :=
  "Aucune donnée à afficher. Vérifiez les filtres.".

(** Lines 22-23: the collection is loaded once per session. *)
Definition load_session : Script unit :=
  let* known := session_contains "data" in
  if known then pure tt
  else let* d := load_data in session_set "data" d.

(** Lines 32-42: the two filters. Each returns its options and what is
    selected. *)
Definition region_filter (w : Widgets) : Script (list string * list string) :=
  let* data := session_get "data" in
  let* column := getitem "region" region data in
  let options := unique column in
  pure (options, multiselect options options (regions_ui w)).

Definition culture_filter (w : Widgets) : Script (list string * list string) :=
  let* data := session_get "data" in
  let* column := getitem "culture" culture data in
  let options := unique column in
  pure (options, multiselect options options (cultures_ui w)).

(** Lines 55-72: the submit handler. *)
Definition on_submit (w : Widgets)
  : Script (option (string * string * num * num)) :=
  let new_geom := Polygon coords_demo in
  let* data := session_get "data" in
  let new_row :=
    {| crs := crs data;
       rows := [ {| culture := culture_new w;
                    region := region_new w;
                    superficie := superficie_new w;
                    rendement_kg_ha := rendement_new w;
                    geometry := new_geom |} ] |} in
  session_set "data" (concat data new_row) ;;;
  let* data' := session_get "data" in
  save_data data' ;;;
  pure (Some (culture_new w, region_new w, superficie_new w, rendement_new w)).

(** Lines 108-112: [filtered_gdf.drop(columns="geometry")]. *)
Definition drop_geometry (view : list Row) : Script DataFrame :=
  match drop_columns "geometry" (as_frame view) with
  | Some df => pure df
  | None => raise (KeyError "geometry")
  end.

(** Lines 75-118: the filtered view, then the map, the metrics, the chart
    or the warning, the table and the export. *)
Definition render (region_opts regions culture_opts cultures : list string)
    (msg : option (string * string * num * num)) : Script Page :=
  (* lines 75-78 *)
  let* data := session_get "data" in
  getitem "region" region data ;;;
  getitem "culture" culture data ;;;
  let filtered := filtered_gdf (rows data) regions cultures in
  (* lines 82-84 *)
  add_gdf filtered ;;;
  (* lines 94-105 *)
  let '(fig, warn) :=
    if negb (gdf_empty filtered)
    then (Some (groupby_mean filtered), None)
    else (None, Some no_data_warning) in
  (* lines 109, 112 *)
  let* shown := drop_geometry filtered in
  let* exported := drop_geometry filtered in
  let csv := to_csv exported in
  pure {| region_options := region_opts;
          region_selected := regions;
          culture_options := culture_opts;
          culture_selected := cultures;
          success := msg;
          map_layer := filtered;
          metric_count := len filtered;
          metric_area := total_area filtered;
          chart := fig;
          warning := warn;
          table := shown;
          download := csv |}.

(** One run of [app.py], top to bottom. *)
Definition app (w : Widgets) : Script Page :=
  load_session ;;;
  image_open ;;;
  let* regions := region_filter w in
  let* cultures := culture_filter w in
  let* msg := (if submit w then on_submit w else pure None) in
  render regions.1 regions.2 cultures.1 cultures.2 msg.

(** The collection a run starts from: the one the session holds, or else
    the memoised load, or else the file. *)
Definition initial_data (ss : gmap string GeoDataFrame) (srv : Server)
  : option GeoDataFrame :=
  match ss !! "data" with
  | Some d => Some d
  | None =>
      match cache srv with
      | Some c => Some c
      | None => fs srv
      end
  end.

(** The same widgets with the submit button not pressed. *)
Definition released (w : Widgets) : Widgets :=
  {| regions_ui := regions_ui w; cultures_ui := cultures_ui w;
     culture_new := culture_new w; region_new := region_new w;
     superficie_new := superficie_new w; rendement_new := rendement_new w;
     submit := false |}.

(** The record that the submit handler builds from the form. *)
Definition form_row (w : Widgets) : Row :=
  {| culture := culture_new w; region := region_new w;
     superficie := superficie_new w; rendement_kg_ha := rendement_new w;
     geometry := Polygon coords_demo |}.

(** What a run produced and where it left the state, whether it completed
    or stopped. *)
Definition rendered {A} (r : Result A) : option A :=
  match r with
  | Ok a _ _ => Some a
  | Raise _ _ _ => None
  end.

Definition raised {A} (r : Result A) : option Error :=
  match r with
  | Ok _ _ _ => None
  | Raise e _ _ => Some e
  end.

Definition final_session {A} (r : Result A) : gmap string GeoDataFrame :=
  match r with
  | Ok _ ss _ => ss
  | Raise _ ss _ => ss
  end.

Definition final_server {A} (r : Result A) : Server :=
  match r with
  | Ok _ _ srv => srv
  | Raise _ _ srv => srv
  end.

(** ** Several sessions on one server

    Streamlit keeps one [st.session_state] per browser session; the file
    and the memo of [load_data] belong to the server process. *)

Record App := mkApp {
  server   : Server;
  sessions : gmap nat (gmap string GeoDataFrame)
}.

(** A server that has just started, with its logo in place and its data
    file writable. *)
Definition boot (file : option GeoDataFrame) : App :=
  {| server := {| fs := file; cache := None; logo := true;
                  writable := true |};
     sessions := ∅ |}.

(** The state of session [sid]; a session that has not run yet starts
    with an empty [st.session_state]. *)
Definition session_of (sid : nat) (a : App) : gmap string GeoDataFrame :=
  default ∅ (sessions a !! sid).

(** One interaction of session [sid]: the script runs once. *)
Definition interact (sid : nat) (w : Widgets) (a : App) : option Page * App :=
  match app w (session_of sid a) (server a) with
  | Ok page ss srv =>
      (Some page, {| server := srv; sessions := <[sid := ss]> (sessions a) |})
  | Raise _ ss srv =>
      (None, {| server := srv; sessions := <[sid := ss]> (sessions a) |})
  end.

Fixpoint replay (events : list (nat * Widgets)) (a : App) : App :=
  match events with
  | [] => a
  | (sid, w) :: events' => replay events' (interact sid w a).2
  end.

End Dashboard.

Global Arguments Geometry : clear implicits.
Global Arguments Row : clear implicits.
Global Arguments GeoDataFrame : clear implicits.
Global Arguments Cell : clear implicits.
Global Arguments DataFrame : clear implicits.
Global Arguments Server : clear implicits.
Global Arguments Widgets : clear implicits.
Global Arguments Page : clear implicits.
Global Arguments App : clear implicits.

(** ** Numbers for the examples

    The value of a literal, or a library call on such numbers left as it
    is written: no result of pandas, numpy, [round] or the GeoJSON writer
    is taken for granted. *)

#[local] Unset Elimination Schemes.
Inductive Number :=
  | Lit (q : Q)
  | SeriesSum (xs : list Number)
  | SeriesMean (xs : list Number)
  | Round2 (x : Number)
  | Stored (x : Number)
  | StoredCoord (x : Number).
#[local] Set Elimination Schemes.

#[export] Instance Number_numeric : Numeric Number := {|
  lit := Lit;
  series_sum := SeriesSum;
  series_mean := SeriesMean;
  round2 := Round2;
  stored := Stored;
  stored_coord := StoredCoord
|}.

(** ** Sample data *)

Module Sample.

Definition square : Geometry Number :=
  Polygon [(Lit (-12.9), Lit 10.0); (Lit (-12.8), Lit 10.0);
           (Lit (-12.8), Lit 10.1); (Lit (-12.9), Lit 10.1);
           (Lit (-12.9), Lit 10.0)].

Definition maize : Row Number :=
  mkRow "maize" "Kindia" (Lit 2.0) (Lit 1000) square.
Definition rice : Row Number :=
  mkRow "rice" "Mamou" (Lit 1.5) (Lit 2000) square.
Definition maize2 : Row Number :=
  mkRow "maize" "Mamou" (Lit 0.75) (Lit 1500) square.

Definition parcels : GeoDataFrame Number := mkGdf "EPSG:4326" [maize; rice].

(** A session that has loaded [parcels]. *)
Definition loaded : gmap string (GeoDataFrame Number) :=
  {[ "data" := parcels ]}.

Definition online : Server Number :=
  {| fs := Some parcels; cache := Some parcels; logo := true;
     writable := true |}.

(** Untouched filters, form left as it is. *)
Definition idle : Widgets Number :=
  mkWidgets None None "" "" (Lit 0.1) (Lit 0) false.

(** The form filled in with a new parcel and submitted. *)
Definition add_sorgho : Widgets Number :=
  mkWidgets None None "sorgho" "Kindia" (Lit 3.5) (Lit 800) true.

Definition add_fonio : Widgets Number :=
  mkWidgets None None "fonio" "Labe" (Lit 1.2) (Lit 600) true.

(** The user narrows the region filter to Kindia. *)
Definition only_kindia : Widgets Number :=
  mkWidgets (Some ["Kindia"]) (Some ["maize"; "rice"]) "" "" (Lit 0.1) (Lit 0)
            false.

(** The user clears the region filter. *)
Definition no_region : Widgets Number :=
  mkWidgets (Some []) None "" "" (Lit 0.1) (Lit 0) false.

(** Session 0 opens the dashboard and adds a parcel; only then does
    session 1 open the dashboard. *)
Definition reopened : list (nat * Widgets Number) :=
  [(0, idle); (0, add_sorgho); (1, idle)].


End Sample.

(** More situations: servers with something missing, a submission of
    values the filters already offer, a submission with a cleared filter,
    and histories of two sessions. *)
Module Scenario.

Import Sample.

(** The memo holds the two parcels; the file is no longer readable. *)
Definition file_gone : Server Number :=
  {| fs := None; cache := Some parcels; logo := true; writable := true |}.

(** The logo cannot be opened. *)
Definition no_logo : Server Number :=
  {| fs := Some parcels; cache := Some parcels; logo := false;
     writable := true |}.

(** The data file cannot be written. *)
Definition read_only : Server Number :=
  {| fs := Some parcels; cache := Some parcels; logo := true;
     writable := false |}.

(** A file without features. *)
Definition no_features : GeoDataFrame Number := mkGdf "EPSG:4326" [].

(** A new maize parcel in Kindia, submitted with untouched filters. *)
Definition add_maize : Widgets Number :=
  mkWidgets None None "maize" "Kindia" (Lit 0.5) (Lit 900) true.

(** The same submission with the culture filter narrowed to rice. *)
Definition add_maize_rice_only : Widgets Number :=
  mkWidgets None (Some ["rice"]) "maize" "Kindia" (Lit 0.5) (Lit 900) true.

(** A parcel submitted while the region filter is cleared. *)
Definition add_sorgho_no_region : Widgets Number :=
  mkWidgets (Some []) None "sorgho" "Kindia" (Lit 3.5) (Lit 800) true.

(** Both filters narrowed to values that no parcel combines. *)
Definition kindia_rice : Widgets Number :=
  mkWidgets (Some ["Kindia"]) (Some ["rice"]) "" "" (Lit 0.1) (Lit 0) false.

(** Both sessions have opened the dashboard. *)
Definition both_open : list (nat * Widgets Number) :=
  [(0, idle); (1, idle)].

(** Session 0 adds a parcel, session 1 adds two, session 0 looks again. *)
Definition busy : list (nat * Widgets Number) :=
  [(0, add_sorgho); (1, add_fonio); (1, add_maize); (0, idle)].


End Scenario.

(** Evaluate a run on closed inputs and name its results. *)
Ltac evaluate Hrun :=
  vm_compute in Hrun; injection Hrun as <- <- <-.

(** * Properties *)

Section Properties.

Context {num : Type} {NUM : Numeric num}.

Implicit Types (data view : list (Row num)) (d : GeoDataFrame num).
Implicit Types (R C : list string) (r : Row num) (w : Widgets num).
Implicit Types (ss : gmap string (GeoDataFrame num)) (srv : Server num).

(** ** The filter *)

(** The mask built from the two [isin] Series selects the rows that pass
    both membership tests, in their order and with their repetitions. *)
Lemma filtered_gdf_filter data R C :
  filtered_gdf data R C
  = filter (fun r => region r ∈ R ∧ culture r ∈ C) data.
Proof.
  unfold filtered_gdf, isin.
  induction data as [|r data IH]; [done|].
  cbn [map and_series select]. rewrite filter_cons, IH.
  destruct (decide (region r ∈ R)) as [Hr|Hr];
    destruct (decide (culture r ∈ C)) as [Hc|Hc];
    rewrite ?(bool_decide_eq_true_2 _ Hr), ?(bool_decide_eq_false_2 _ Hr),
            ?(bool_decide_eq_true_2 _ Hc), ?(bool_decide_eq_false_2 _ Hc);
    cbn [andb]; case_decide; tauto || (f_equal; tauto) || done.
Qed.

Lemma elem_of_filtered_gdf data R C r :
  r ∈ filtered_gdf data R C ↔ r ∈ data ∧ region r ∈ R ∧ culture r ∈ C.
Proof. rewrite filtered_gdf_filter, list_elem_of_filter. tauto. Qed.

(** C1. The filter returns exactly the records of the collection whose
    region is among the selected regions and whose culture is among the
    selected cultures: it is the subsequence of the collection passing both
    tests, so a record is returned if and only if it is in the collection
    and passes both. *)
Theorem filter_exact data R C :
  filtered_gdf data R C
    = filter (fun r => region r ∈ R ∧ culture r ∈ C) data
  ∧ (∀ r, r ∈ filtered_gdf data R C
          ↔ r ∈ data ∧ region r ∈ R ∧ culture r ∈ C)
  ∧ filtered_gdf data R C `sublist_of` data.
Proof.
  split; [apply filtered_gdf_filter|].
  split; [intros r; apply elem_of_filtered_gdf|].
  rewrite filtered_gdf_filter. apply sublist_filter.
Qed.

Lemma filtered_gdf_no_selection data R C :
  R = [] ∨ C = [] → filtered_gdf data R C = [].
Proof.
  intros HRC. rewrite filtered_gdf_filter.
  induction data as [|r data IH]; [done|].
  rewrite filter_cons, IH. case_decide as Hin; [|done].
  destruct HRC as [-> | ->]; destruct Hin as [Hr Hc];
    [by apply not_elem_of_nil in Hr | by apply not_elem_of_nil in Hc].
Qed.

(** C4. With no region selected, or with no culture selected, the filter
    returns no record, whatever the collection holds. *)
Theorem filter_empty_selection data R C :
  R = [] ∨ C = [] → filtered_gdf data R C = [].
Proof. apply filtered_gdf_no_selection. Qed.

(** C10. Filtering is idempotent: every record of the filtered view
    passes both membership tests, and filtering the view again with the
    same selections returns the view itself. *)
Theorem filter_idempotent data R C :
  (∀ r, r ∈ filtered_gdf data R C → region r ∈ R ∧ culture r ∈ C)
  ∧ filtered_gdf (filtered_gdf data R C) R C = filtered_gdf data R C.
Proof.
  split.
  - intros r Hr. apply elem_of_filtered_gdf in Hr. tauto.
  - rewrite !filtered_gdf_filter.
    induction data as [|r data IH]; [done|].
    rewrite filter_cons. case_decide as Hin; [|done].
    rewrite filter_cons, decide_True by done. by rewrite IH.
Qed.

(** ** Distinct values and the multiselect *)

Lemma elem_of_unique_from seen xs x :
  x ∈ unique_from seen xs ↔ x ∈ xs ∧ x ∉ seen.
Proof.
  revert seen. induction xs as [|y xs IH]; intros seen; cbn.
  - split; [by intros ?%not_elem_of_nil | by intros [?%not_elem_of_nil _]].
  - case_bool_decide as Hy.
    + rewrite IH, elem_of_cons. split; [tauto|].
      intros [[->|Hx] Hn]; [contradiction | tauto].
    + rewrite !elem_of_cons, IH, elem_of_cons.
      destruct (decide (x = y)) as [->|Hne]; tauto.
Qed.

Lemma elem_of_unique xs x : x ∈ unique xs ↔ x ∈ xs.
Proof.
  unfold unique. rewrite elem_of_unique_from. split; [tauto|].
  intros Hx. split; [done | apply not_elem_of_nil].
Qed.

Lemma NoDup_unique_from seen xs : NoDup (unique_from seen xs).
Proof.
  revert seen. induction xs as [|y xs IH]; intros seen; cbn.
  - constructor.
  - case_bool_decide as Hy; [apply IH|].
    constructor; [|apply IH].
    rewrite elem_of_unique_from, elem_of_cons. tauto.
Qed.

Lemma NoDup_unique xs : NoDup (unique xs).
Proof. apply NoDup_unique_from. Qed.

(** Whatever the user does, a multiselect whose default is its list of
    options returns values among the options. *)
Lemma multiselect_options options ui v :
  v ∈ multiselect options options ui → v ∈ options.
Proof.
  destruct ui as [chosen|]; cbn; [|done].
  rewrite list_elem_of_filter. tauto.
Qed.

Lemma filter_all data (P : Row num → Prop) `{!∀ r, Decision (P r)} :
  (∀ r, r ∈ data → P r) → filter P data = data.
Proof.
  induction data as [|r data IH]; intros HP; [done|].
  rewrite filter_cons, decide_True by (apply HP; left).
  f_equal. apply IH. intros r' Hr'. apply HP. by right.
Qed.

(** With both filters at their default, the whole collection is shown. *)
Lemma filtered_gdf_default data :
  filtered_gdf data (unique (map region data)) (unique (map culture data))
  = data.
Proof.
  rewrite filtered_gdf_filter. apply filter_all. intros r Hr.
  rewrite !elem_of_unique. split; by apply list_elem_of_fmap_2.
Qed.

(** ** Grouping by culture *)

#[local] Instance str_le_total : Total str_le.
Proof.
  intros a b. unfold str_le.
  destruct (String.leb_total a b) as [E|E]; rewrite E; [by left | by right].
Qed.

Lemma groupby_mean_keys view :
  (groupby_mean view).*1 = merge_sort str_le (unique (map culture view)).
Proof.
  unfold groupby_mean. rewrite <- list_fmap_compose.
  induction (merge_sort _ _) as [|k ks IH]; [done|]. cbn. by rewrite IH.
Qed.

Lemma elem_of_groupby_keys view k :
  k ∈ (groupby_mean view).*1 ↔ ∃ r, r ∈ view ∧ culture r = k.
Proof.
  rewrite groupby_mean_keys, merge_sort_Permutation, elem_of_unique,
    list_elem_of_fmap.
  split; intros (r & H1 & H2); exists r; done.
Qed.

Lemma NoDup_groupby_keys view : NoDup (groupby_mean view).*1.
Proof.
  rewrite groupby_mean_keys, merge_sort_Permutation. apply NoDup_unique.
Qed.

Lemma Sorted_groupby_keys view : Sorted str_le (groupby_mean view).*1.
Proof. rewrite groupby_mean_keys. apply Sorted_merge_sort, _. Qed.

Lemma elem_of_groupby_mean view k v :
  (k, v) ∈ groupby_mean view →
  v = series_mean (map rendement_kg_ha
                     (filter (fun r => culture r = k) view)).
Proof.
  unfold groupby_mean. rewrite list_elem_of_fmap.
  intros (k' & [= -> ->] & _). done.
Qed.

(** ** The parts of the script *)

(** The table without its geometry column. *)
Lemma drop_geometry_as_frame view :
  drop_columns "geometry" (as_frame view)
  = Some {| columns := ["culture"; "region"; "superficie"; "rendement_kg_ha"];
            body := map (fun r => [CText (culture r); CText (region r);
                                   CNum (superficie r);
                                   CNum (rendement_kg_ha r)]) view |}.
Proof.
  unfold drop_columns, as_frame. cbn [columns body].
  replace (column_index "geometry" gdf_columns) with (Some 4)
    by (vm_compute; reflexivity).
  cbn. do 2 f_equal.
  induction view as [|r view IH]; [done|]. cbn. by rewrite IH.
Qed.

(** Lines 22-23. With a collection available the load completes and the
    session holds it; the file is read, and the memo filled, only when
    neither the session nor the memo had one. *)
Lemma load_session_run ss srv d :
  initial_data ss srv = Some d →
  load_session ss srv
  = Ok tt (<["data" := d]> ss)
       {| fs := fs srv;
          cache := match ss !! "data" with
                   | Some _ => cache srv
                   | None => Some d
                   end;
          logo := logo srv; writable := writable srv |}.
Proof.
  unfold initial_data, load_session, bind, session_contains, session_set,
    load_data, read_file, pure.
  destruct (ss !! "data") as [d0|] eqn:Hn.
  - intros [= ->]. rewrite bool_decide_eq_true_2 by eauto.
    rewrite (insert_id ss "data" d Hn). by destruct srv.
  - rewrite bool_decide_eq_false_2 by (by intros [? ?]).
    destruct (cache srv) as [c|] eqn:Hc.
    + intros [= ->]. destruct srv; cbn in *. by subst.
    + intros Hf. rewrite Hf. cbn. by rewrite ?Hf.
Qed.

Lemma load_session_unavailable ss srv :
  initial_data ss srv = None →
  load_session ss srv = Raise DataUnavailable ss srv.
Proof.
  unfold initial_data, load_session, bind, session_contains, session_set,
    load_data, read_file, pure.
  destruct (ss !! "data") as [d0|] eqn:Hn; [done|].
  rewrite bool_decide_eq_false_2 by (by intros [? ?]).
  destruct (cache srv); [done|]. by intros ->.
Qed.

(** Lines 32-42. A frame without rows has no [region] column. *)
Lemma region_filter_run w ss srv d :
  ss !! "data" = Some d →
  region_filter w ss srv
  = if gdf_empty (rows d) then Raise (KeyError "region") ss srv
    else Ok (unique (map region (rows d)),
             multiselect (unique (map region (rows d)))
                         (unique (map region (rows d))) (regions_ui w))
            ss srv.
Proof.
  intros Hd. unfold region_filter, bind, session_get, getitem, raise, pure.
  rewrite Hd. by destruct (rows d).
Qed.

Lemma culture_filter_run w ss srv d :
  ss !! "data" = Some d →
  culture_filter w ss srv
  = if gdf_empty (rows d) then Raise (KeyError "culture") ss srv
    else Ok (unique (map culture (rows d)),
             multiselect (unique (map culture (rows d)))
                         (unique (map culture (rows d))) (cultures_ui w))
            ss srv.
Proof.
  intros Hd. unfold culture_filter, bind, session_get, getitem, raise, pure.
  rewrite Hd. by destruct (rows d).
Qed.

(** Lines 55-72. The session gets the longer collection first; the file
    is then rewritten, unless it cannot be written. *)
Lemma on_submit_run w ss srv d :
  ss !! "data" = Some d →
  let d' := concat d (mkGdf (crs d) [form_row w]) in
  on_submit w ss srv
  = if writable srv
    then Ok (Some (culture_new w, region_new w, superficie_new w,
                   rendement_new w))
            (<["data" := d']> ss)
            {| fs := Some (stored_frame d'); cache := cache srv;
               logo := logo srv; writable := writable srv |}
    else Raise WriteFailed (<["data" := d']> ss) srv.
Proof.
  intros Hd d'. unfold on_submit, bind, session_get, session_set, save_data,
    to_file, pure.
  rewrite Hd, lookup_insert_eq. fold (form_row w). fold d'.
  by destruct (writable srv).
Qed.

(** Lines 75-118. The map stops the run on an empty view; otherwise the
    page is rendered from the view and the state is left alone. *)
Lemma render_run ro R co C msg ss srv d :
  ss !! "data" = Some d →
  let view := filtered_gdf (rows d) R C in
  let attrs := map (fun r => [CText (culture r); CText (region r);
                              CNum (superficie r);
                              CNum (rendement_kg_ha r)]) view in
  let header := ["culture"; "region"; "superficie"; "rendement_kg_ha"] in
  render ro R co C msg ss srv
  = if gdf_empty (rows d) then Raise (KeyError "region") ss srv
    else if gdf_empty view then Raise IndexError ss srv
    else Ok {| region_options := ro;
               region_selected := R;
               culture_options := co;
               culture_selected := C;
               success := msg;
               map_layer := view;
               metric_count := length view;
               metric_area := total_area view;
               chart := Some (groupby_mean view);
               warning := None;
               table := {| columns := header; body := attrs |};
               download := map CText header :: attrs |}
            ss srv.
Proof.
  intros Hd view attrs header. subst view attrs header.
  unfold render, bind at 1, session_get. rewrite Hd.
  unfold getitem, bind at 1 2, raise, pure.
  destruct (rows d) as [|r0 rs] eqn:Hrows; [done|].
  cbn [gdf_empty]. rewrite <- Hrows.
  unfold bind at 1, add_gdf, raise, pure.
  destruct (gdf_empty (filtered_gdf (rows d) R C)) eqn:Hv; [done|].
  cbn [negb]. unfold drop_geometry. rewrite drop_geometry_as_frame.
  unfold bind, pure, to_csv, len. done.
Qed.

(** The rendering part never changes the session or the server. *)
Lemma render_state ro R co C msg ss srv :
  final_session (render ro R co C msg ss srv) = ss
  ∧ final_server (render ro R co C msg ss srv) = srv.
Proof.
  destruct (ss !! "data") as [d|] eqn:Hd.
  - pose proof (render_run ro R co C msg ss srv d Hd) as Hrun.
    cbv zeta in Hrun. rewrite Hrun.
    destruct (gdf_empty (rows d)); [split; reflexivity|].
    destruct (gdf_empty (filtered_gdf (rows d) R C)); split; reflexivity.
  - unfold render, bind, session_get. rewrite Hd. split; reflexivity.
Qed.

(** ** One run *)

(** A run in a session that holds a collection: where it stops, and
    otherwise the state in which the page is rendered. *)
Lemma app_run w ss srv d :
  ss !! "data" = Some d →
  let ro := unique (map region (rows d)) in
  let co := unique (map culture (rows d)) in
  let d' := concat d (mkGdf (crs d) [form_row w]) in
  app w ss srv
  = if logo srv then
      if gdf_empty (rows d) then Raise (KeyError "region") ss srv
      else if submit w then
        if writable srv then
          render ro (multiselect ro ro (regions_ui w))
                 co (multiselect co co (cultures_ui w))
                 (Some (culture_new w, region_new w, superficie_new w,
                        rendement_new w))
                 (<["data" := d']> ss)
                 {| fs := Some (stored_frame d'); cache := cache srv;
                    logo := logo srv; writable := writable srv |}
        else Raise WriteFailed (<["data" := d']> ss) srv
      else render ro (multiselect ro ro (regions_ui w))
                  co (multiselect co co (cultures_ui w)) None ss srv
    else Raise LogoUnavailable ss srv.
Proof.
  intros Hd ro co d'.
  assert (Hi : initial_data ss srv = Some d)
    by (unfold initial_data; by rewrite Hd).
  unfold app, bind at 1. rewrite (load_session_run ss srv d Hi), Hd.
  rewrite (insert_id ss "data" d Hd).
  replace {| fs := fs srv; cache := cache srv; logo := logo srv;
             writable := writable srv |} with srv by (by destruct srv).
  unfold bind at 1, image_open.
  destruct (logo srv) eqn:Hlogo; [|done].
  unfold bind at 1. rewrite (region_filter_run w ss srv d Hd).
  destruct (gdf_empty (rows d)) eqn:Hemp; [done|].
  unfold bind at 1. rewrite (culture_filter_run w ss srv d Hd), Hemp.
  cbn [fst snd]. fold ro co.
  unfold bind at 1.
  destruct (submit w); [|done].
  pose proof (on_submit_run w ss srv d Hd) as Hsub. cbv zeta in Hsub.
  rewrite Hsub. fold d'. rewrite Hlogo. by destruct (writable srv).
Qed.

(** A session without a collection loads one and goes on as if it had
    held it. *)
Lemma app_initial w ss srv d :
  initial_data ss srv = Some d →
  app w ss srv
  = app w (<["data" := d]> ss)
        {| fs := fs srv;
           cache := match ss !! "data" with
                    | Some _ => cache srv
                    | None => Some d
                    end;
           logo := logo srv; writable := writable srv |}.
Proof.
  intros Hi. unfold app, bind at 1 6.
  rewrite (load_session_run ss srv d Hi).
  rewrite (load_session_run (<["data" := d]> ss) _ d)
    by (unfold initial_data; by rewrite lookup_insert_eq).
  rewrite lookup_insert_eq, insert_insert_eq. done.
Qed.

(** Without a collection in the session, a memoised load or a readable
    file, the run stops at the load and changes nothing. *)
Lemma app_unavailable w ss srv :
  initial_data ss srv = None →
  app w ss srv = Raise DataUnavailable ss srv.
Proof.
  intros Hi. unfold app, bind at 1.
  by rewrite (load_session_unavailable ss srv Hi).
Qed.

(** The state in which a run ends, whether it completes or stops: the
    session holds the collection the run started from, with the form's
    record appended if the submit handler was reached; the file is
    rewritten only then, and only if it can be written; the memo is filled
    by a first load and otherwise left alone. *)
Lemma app_state w ss srv d :
  initial_data ss srv = Some d →
  let reached := logo srv && negb (gdf_empty (rows d)) && submit w in
  let d' := if reached then concat d (mkGdf (crs d) [form_row w]) else d in
  final_session (app w ss srv) = <["data" := d']> ss
  ∧ final_server (app w ss srv)
    = {| fs := if reached && writable srv then Some (stored_frame d')
               else fs srv;
         cache := match ss !! "data" with
                  | Some _ => cache srv
                  | None => Some d
                  end;
         logo := logo srv; writable := writable srv |}.
Proof.
  intros Hi. rewrite (app_initial w ss srv d Hi).
  pose proof (app_run w (<["data" := d]> ss)
                {| fs := fs srv;
                   cache := match ss !! "data" with
                            | Some _ => cache srv
                            | None => Some d
                            end;
                   logo := logo srv; writable := writable srv |} d
                (lookup_insert_eq _ _ _)) as Hrun.
  cbv zeta in Hrun. rewrite Hrun. cbn [logo writable fs cache].
  destruct (logo srv); [|done]. destruct (gdf_empty (rows d)); [done|].
  destruct (submit w); cbn [andb negb].
  - destruct (writable srv); cbn [final_session final_server].
    + destruct (render_state (unique (map region (rows d)))
                  (multiselect (unique (map region (rows d)))
                     (unique (map region (rows d))) (regions_ui w))
                  (unique (map culture (rows d)))
                  (multiselect (unique (map culture (rows d)))
                     (unique (map culture (rows d))) (cultures_ui w))
                  (Some (culture_new w, region_new w, superficie_new w,
                         rendement_new w))
                  (<["data" := concat d (mkGdf (crs d) [form_row w])]>
                     (<["data" := d]> ss))
                  {| fs := Some (stored_frame
                                   (concat d (mkGdf (crs d) [form_row w])));
                     cache := match ss !! "data" with
                              | Some _ => cache srv
                              | None => Some d
                              end;
                     logo := true; writable := true |}) as [-> ->].
      by rewrite insert_insert_eq.
    + by rewrite insert_insert_eq.
  - by destruct (render_state (unique (map region (rows d)))
                  (multiselect (unique (map region (rows d)))
                     (unique (map region (rows d))) (regions_ui w))
                  (unique (map culture (rows d)))
                  (multiselect (unique (map culture (rows d)))
                     (unique (map culture (rows d))) (cultures_ui w))
                  None (<["data" := d]> ss)
                  {| fs := fs srv;
                     cache := match ss !! "data" with
                              | Some _ => cache srv
                              | None => Some d
                              end;
                     logo := true; writable := writable srv |}) as [-> ->].
Qed.

Lemma gdf_empty_true data : gdf_empty data = true ↔ data = [].
Proof. by destruct data. Qed.

Lemma gdf_empty_false data : gdf_empty data = false ↔ data ≠ [].
Proof. by destruct data. Qed.

Lemma gdf_empty_app data r : gdf_empty (data ++ [r]) = false.
Proof. by destruct data. Qed.

(** The closed form of a run that has a collection to start from. *)
Lemma app_closed w ss srv d :
  initial_data ss srv = Some d →
  let ro := unique (map region (rows d)) in
  let R := multiselect ro ro (regions_ui w) in
  let co := unique (map culture (rows d)) in
  let C := multiselect co co (cultures_ui w) in
  let d' := if submit w then concat d (mkGdf (crs d) [form_row w]) else d in
  let view := filtered_gdf (rows d') R C in
  let memo := match ss !! "data" with
              | Some _ => cache srv
              | None => Some d
              end in
  let srv1 := {| fs := fs srv; cache := memo; logo := logo srv;
                 writable := writable srv |} in
  let srv' := if submit w
              then {| fs := Some (stored_frame d'); cache := memo;
                      logo := logo srv; writable := writable srv |}
              else srv1 in
  app w ss srv
  = if logo srv then
      if gdf_empty (rows d) then Raise (KeyError "region") (<["data" := d]> ss)
                                       srv1
      else if submit w && negb (writable srv)
      then Raise WriteFailed (<["data" := d']> ss) srv1
      else if gdf_empty view then Raise IndexError (<["data" := d']> ss) srv'
      else Ok {| region_options := ro;
                 region_selected := R;
                 culture_options := co;
                 culture_selected := C;
                 success :=
                   if submit w
                   then Some (culture_new w, region_new w, superficie_new w,
                              rendement_new w)
                   else None;
                 map_layer := view;
                 metric_count := length view;
                 metric_area := total_area view;
                 chart := Some (groupby_mean view);
                 warning := None;
                 table :=
                   {| columns := ["culture"; "region"; "superficie";
                                  "rendement_kg_ha"];
                      body := map (fun r => [CText (culture r);
                                             CText (region r);
                                             CNum (superficie r);
                                             CNum (rendement_kg_ha r)])
                                  view |};
                 download :=
                   map CText ["culture"; "region"; "superficie";
                              "rendement_kg_ha"]
                   :: map (fun r => [CText (culture r); CText (region r);
                                     CNum (superficie r);
                                     CNum (rendement_kg_ha r)]) view |}
              (<["data" := d']> ss) srv'
    else Raise LogoUnavailable (<["data" := d]> ss) srv1.
Proof.
  intros Hi ro R co C d' view memo srv1 srv'.
  rewrite (app_initial w ss srv d Hi). fold memo. fold srv1.
  pose proof (app_run w (<["data" := d]> ss) srv1 d (lookup_insert_eq _ _ _))
    as Hrun.
  cbv zeta in Hrun. rewrite Hrun. clear Hrun.
  fold ro co. fold R C. subst srv1. cbn [logo writable fs cache].
  destruct (logo srv); [|done].
  destruct (gdf_empty (rows d)) eqn:Hemp; [done|].
  subst srv' view d'. destruct (submit w); cbn [andb].
  - destruct (writable srv); cbn [negb]; [|by rewrite insert_insert_eq].
    rewrite insert_insert_eq.
    pose proof (render_run ro R co C
                  (Some (culture_new w, region_new w, superficie_new w,
                         rendement_new w))
                  (<["data" := concat d (mkGdf (crs d) [form_row w])]> ss)
                  {| fs := Some (stored_frame
                                   (concat d (mkGdf (crs d) [form_row w])));
                     cache := memo; logo := true; writable := true |}
                  _ (lookup_insert_eq _ _ _)) as Hr.
    cbv zeta in Hr. rewrite Hr. cbn [concat rows].
    by rewrite gdf_empty_app.
  - pose proof (render_run ro R co C None (<["data" := d]> ss)
                  {| fs := fs srv; cache := memo; logo := true;
                     writable := writable srv |}
                  _ (lookup_insert_eq _ _ _)) as Hr.
    cbv zeta in Hr. rewrite Hr, Hemp. done.
Qed.

(** Where a run stops, if it does. *)
Lemma app_raised w ss srv d :
  initial_data ss srv = Some d →
  let ro := unique (map region (rows d)) in
  let co := unique (map culture (rows d)) in
  let d' := if submit w then concat d (mkGdf (crs d) [form_row w]) else d in
  let view := filtered_gdf (rows d') (multiselect ro ro (regions_ui w))
                  (multiselect co co (cultures_ui w)) in
  raised (app w ss srv)
  = if logo srv then
      if gdf_empty (rows d) then Some (KeyError "region")
      else if submit w && negb (writable srv) then Some WriteFailed
      else if gdf_empty view then Some IndexError
      else None
    else Some LogoUnavailable.
Proof.
  intros Hi. pose proof (app_closed w ss srv d Hi) as Hrun.
  cbv zeta in *. rewrite Hrun.
  destruct (logo srv); [|done]. destruct (gdf_empty (rows d)); [done|].
  destruct (submit w && negb (writable srv)); [done|].
  by destruct (gdf_empty _).
Qed.

(** What a completed run has rendered, and what had to hold for it to
    complete. *)
Lemma app_rendered w ss srv d page ss' srv' :
  initial_data ss srv = Some d →
  app w ss srv = Ok page ss' srv' →
  logo srv = true ∧ rows d ≠ []
  ∧ (submit w = true → writable srv = true)
  ∧ ∃ d',
      d' = (if submit w then concat d (mkGdf (crs d) [form_row w]) else d)
      ∧ ss' !! "data" = Some d'
      ∧ region_options page = unique (map region (rows d))
      ∧ culture_options page = unique (map culture (rows d))
      ∧ region_selected page
        = multiselect (region_options page) (region_options page)
                      (regions_ui w)
      ∧ culture_selected page
        = multiselect (culture_options page) (culture_options page)
                      (cultures_ui w)
      ∧ success page
        = (if submit w
           then Some (culture_new w, region_new w, superficie_new w,
                      rendement_new w)
           else None)
      ∧ let view := filtered_gdf (rows d') (region_selected page)
                                 (culture_selected page) in
        view ≠ []
        ∧ map_layer page = view
        ∧ metric_count page = length view
        ∧ metric_area page = total_area view
        ∧ chart page = Some (groupby_mean view)
        ∧ warning page = None
        ∧ table page
          = {| columns := ["culture"; "region"; "superficie";
                           "rendement_kg_ha"];
               body := map (fun r => [CText (culture r); CText (region r);
                                      CNum (superficie r);
                                      CNum (rendement_kg_ha r)]) view |}
        ∧ download page
          = map CText (columns (table page)) :: body (table page).
Proof.
  intros Hi Hrun. pose proof (app_closed w ss srv d Hi) as Hc.
  cbv zeta in Hc. rewrite Hc in Hrun. clear Hc.
  destruct (logo srv); [|discriminate Hrun].
  destruct (gdf_empty (rows d)) eqn:Hemp; [discriminate Hrun|].
  destruct (submit w && negb (writable srv)) eqn:Hw; [discriminate Hrun|].
  destruct (gdf_empty (filtered_gdf _ _ _)) eqn:Hv; [discriminate Hrun|].
  injection Hrun as <- <- _.
  split; [done|]. split; [by apply gdf_empty_false|].
  split. { intros Hs. rewrite Hs in Hw. by destruct (writable srv). }
  eexists. split; [reflexivity|]. split; [apply lookup_insert_eq|].
  cbn. do 5 (split; [done|]).
  split; [by apply gdf_empty_false|]. done.
Qed.

(** A run completes when the logo opens, the collection has a record, the
    file can be written if the form is submitted, and the view is not
    empty. *)
Lemma app_completes w ss srv d :
  initial_data ss srv = Some d →
  logo srv = true → rows d ≠ [] →
  (submit w = true → writable srv = true) →
  filtered_gdf
    (rows (if submit w then concat d (mkGdf (crs d) [form_row w]) else d))
    (multiselect (unique (map region (rows d)))
                 (unique (map region (rows d))) (regions_ui w))
    (multiselect (unique (map culture (rows d)))
                 (unique (map culture (rows d))) (cultures_ui w)) ≠ [] →
  ∃ page ss' srv', app w ss srv = Ok page ss' srv'.
Proof.
  intros Hi Hlogo Hrows Hw Hview.
  pose proof (app_closed w ss srv d Hi) as Hc. cbv zeta in Hc.
  rewrite Hc, Hlogo. apply gdf_empty_false in Hrows, Hview.
  rewrite Hrows, Hview.
  replace (submit w && negb (writable srv)) with false; [eauto|].
  destruct (submit w); [|done]. by rewrite Hw.
Qed.

(** ** The append *)

(** C2. The append makes the session's collection exactly one record
    longer, for every collection the session holds and every submitted
    quadruple: the record at the new last position carries the four
    submitted values and the fixed polygon with vertices (-13.7,9.5),
    (-13.6,9.5), (-13.6,9.6), (-13.7,9.6), in the reference system of the
    collection. This is the state the submit handler leaves, and the state
    in which the run of the script ends once it has reached the handler,
    whether or not it goes on to render the page. *)
Theorem append_adds_one_record w ss srv d :
  ss !! "data" = Some d → submit w = true →
  ∃ d' r,
    final_session (on_submit w ss srv) !! "data" = Some d'
    ∧ (logo srv = true → rows d ≠ [] →
       final_session (app w ss srv) !! "data" = Some d')
    ∧ length (rows d') = S (length (rows d))
    ∧ rows d' !! length (rows d) = Some r
    ∧ last (rows d') = Some r
    ∧ culture r = culture_new w
    ∧ region r = region_new w
    ∧ superficie r = superficie_new w
    ∧ rendement_kg_ha r = rendement_new w
    ∧ geometry r
      = Polygon [(lit (-13.7), lit 9.5); (lit (-13.6), lit 9.5);
                 (lit (-13.6), lit 9.6); (lit (-13.7), lit 9.6);
                 (lit (-13.7), lit 9.5)]
    ∧ vertices (geometry r)
      = [(lit (-13.7), lit 9.5); (lit (-13.6), lit 9.5);
         (lit (-13.6), lit 9.6); (lit (-13.7), lit 9.6)]
    ∧ crs d' = crs d.
Proof.
  intros Hd Hs.
  exists (concat d (mkGdf (crs d) [form_row w])), (form_row w).
  split.
  { pose proof (on_submit_run w ss srv d Hd) as Hsub. cbv zeta in Hsub.
    rewrite Hsub. destruct (writable srv); apply lookup_insert_eq. }
  split.
  { intros Hlogo Hrows.
    assert (Hi : initial_data ss srv = Some d)
      by (unfold initial_data; by rewrite Hd).
    destruct (app_state w ss srv d Hi) as [-> _].
    apply gdf_empty_false in Hrows. rewrite Hlogo, Hrows, Hs. cbn.
    apply lookup_insert_eq. }
  cbn [concat rows crs].
  split; [rewrite length_app; cbn; lia|].
  split; [by rewrite lookup_app_r, Nat.sub_diag by lia|].
  split; [by rewrite last_snoc|]. done.
Qed.

(** C7. The append leaves every record that the session already held as
    it was and where it was; the new record comes after them. This is the
    state the submit handler leaves, and the state in which the run ends
    once it has reached the handler. *)
Theorem append_preserves_existing w ss srv d :
  ss !! "data" = Some d → submit w = true →
  ∃ d',
    final_session (on_submit w ss srv) !! "data" = Some d'
    ∧ (logo srv = true → rows d ≠ [] →
       final_session (app w ss srv) !! "data" = Some d')
    ∧ rows d' = rows d ++ [form_row w]
    ∧ take (length (rows d)) (rows d') = rows d
    ∧ (∀ i r, rows d !! i = Some r → rows d' !! i = Some r)
    ∧ rows d' !! length (rows d) = Some (form_row w).
Proof.
  intros Hd Hs.
  exists (concat d (mkGdf (crs d) [form_row w])).
  split.
  { pose proof (on_submit_run w ss srv d Hd) as Hsub. cbv zeta in Hsub.
    rewrite Hsub. destruct (writable srv); apply lookup_insert_eq. }
  split.
  { intros Hlogo Hrows.
    assert (Hi : initial_data ss srv = Some d)
      by (unfold initial_data; by rewrite Hd).
    destruct (app_state w ss srv d Hi) as [-> _].
    apply gdf_empty_false in Hrows. rewrite Hlogo, Hrows, Hs. cbn.
    apply lookup_insert_eq. }
  cbn [concat rows].
  split; [done|].
  split; [by rewrite take_app_length|].
  split; [intros i r Hi; by apply lookup_app_l_Some|].
  by rewrite lookup_app_r, Nat.sub_diag by lia.
Qed.


(** ** The empty view *)

(** C5, at the inputs where the script fails it. Whenever the filtered
    view is empty, the run stops at the map, which cannot take an empty
    frame: nothing is rendered, so neither a count of 0 nor a total area
    of 0.00 is ever shown. *)
Theorem empty_view_stops_before_metrics w ss srv d :
  initial_data ss srv = Some d →
  logo srv = true → rows d ≠ [] →
  (submit w = true → writable srv = true) →
  filtered_gdf
    (rows (if submit w then concat d (mkGdf (crs d) [form_row w]) else d))
    (multiselect (unique (map region (rows d)))
                 (unique (map region (rows d))) (regions_ui w))
    (multiselect (unique (map culture (rows d)))
                 (unique (map culture (rows d))) (cultures_ui w)) = [] →
  raised (app w ss srv) = Some IndexError
  ∧ rendered (app w ss srv) = None.
Proof.
  intros Hi Hlogo Hrows Hw Hview.
  pose proof (app_closed w ss srv d Hi) as Hc. cbv zeta in Hc.
  apply gdf_empty_false in Hrows. apply gdf_empty_true in Hview.
  rewrite Hc, Hlogo, Hrows, Hview.
  replace (submit w && negb (writable srv)) with false; [done|].
  destruct (submit w); [|done]. by rewrite Hw.
Qed.

(** No completed run shows the warning: a page is rendered only from a
    view that has a record, and then the chart is drawn. *)
Lemma warning_is_never_shown w ss srv page ss' srv' :
  app w ss srv = Ok page ss' srv' →
  warning page = None ∧ is_Some (chart page) ∧ (0 < metric_count page)%nat.
Proof.
  intros Hrun. destruct (initial_data ss srv) as [d|] eqn:Hi.
  2:{ by rewrite (app_unavailable w ss srv Hi) in Hrun. }
  destruct (app_rendered w ss srv d page ss' srv' Hi Hrun)
    as (_ & _ & _ & d' & _ & _ & _ & _ & _ & _ & _ & Hpage).
  cbv zeta in Hpage.
  destruct Hpage as (Hne & _ & Hcount & _ & Hchart & Hwarn & _).
  split; [done|]. split; [rewrite Hchart; eauto|].
  rewrite Hcount. destruct (filtered_gdf _ _ _); [done|cbn; lia].
Qed.

(** C6, at the inputs where the script fails it. With a filter cleared
    the view is empty, and the run stops at the map before it reaches the
    warning: no page is rendered and no warning is shown. *)
Theorem cleared_filter_stops_before_warning w ss srv d :
  initial_data ss srv = Some d →
  logo srv = true → rows d ≠ [] →
  (submit w = true → writable srv = true) →
  regions_ui w = Some [] ∨ cultures_ui w = Some [] →
  raised (app w ss srv) = Some IndexError
  ∧ rendered (app w ss srv) = None.
Proof.
  intros Hi Hlogo Hrows Hw Hui.
  pose proof (app_closed w ss srv d Hi) as Hc. cbv zeta in Hc.
  apply gdf_empty_false in Hrows.
  rewrite Hc, Hlogo, Hrows. clear Hc.
  replace (submit w && negb (writable srv)) with false
    by (destruct (submit w); [by rewrite Hw | done]).
  rewrite filtered_gdf_no_selection; [done|].
  destruct Hui as [-> | ->]; [by left | by right].
Qed.

(** ** The table and the export *)


(** ** Appending a value the filters do not know yet *)

(** A record that fails one of the two membership tests does not change
    the filtered view when it is appended. *)
Lemma filtered_gdf_snoc_out data R C r :
  region r ∉ R ∨ culture r ∉ C →
  filtered_gdf (data ++ [r]) R C = filtered_gdf data R C.
Proof.
  intros Hout. rewrite !filtered_gdf_filter, filter_app.
  rewrite filter_cons, decide_False by tauto.
  rewrite filter_nil. apply app_nil_r.
Qed.

(** C9. The options of both filters, and so whatever is selected, come
    from the collection as it was before the append. When the submitted
    region or culture did not occur in the collection, the page of the
    submitting run does not show the new record: its map, metrics, chart,
    warning, table and export are those of the same run without the
    submission, and the submitting run renders its page whenever that run
    does. In every later run that renders a page the submitted values are
    among the options, and the record is shown as soon as they are
    selected; a later run with both filters at their default renders the
    page and shows it. *)
Theorem new_value_hidden_until_rerun w ss srv d :
  ss !! "data" = Some d → submit w = true →
  region_new w ∉ map region (rows d) ∨ culture_new w ∉ map culture (rows d) →
  (∀ page ss' srv',
     app w ss srv = Ok page ss' srv' →
     region_options page = unique (map region (rows d))
     ∧ culture_options page = unique (map culture (rows d))
     ∧ (∀ v, v ∈ region_selected page → v ∈ map region (rows d))
     ∧ (∀ v, v ∈ culture_selected page → v ∈ map culture (rows d))
     ∧ (form_row w ∉ map_layer page)
     ∧ ∃ page0,
         app (released w) ss srv = Ok page0 ss srv
         ∧ map_layer page = map_layer page0
         ∧ metric_count page = metric_count page0
         ∧ metric_area page = metric_area page0
         ∧ chart page = chart page0
         ∧ warning page = warning page0
         ∧ table page = table page0
         ∧ download page = download page0)
  ∧ (writable srv = true →
     ∀ page0 ss0 srv0,
       app (released w) ss srv = Ok page0 ss0 srv0 →
       ∃ page ss' srv', app w ss srv = Ok page ss' srv')
  ∧ (logo srv = true → rows d ≠ [] →
     ∀ w2, submit w2 = false →
       (∀ page2 ss2 srv2,
          app w2 (final_session (app w ss srv)) (final_server (app w ss srv))
          = Ok page2 ss2 srv2 →
          region_new w ∈ region_options page2
          ∧ culture_new w ∈ culture_options page2
          ∧ (region_new w ∈ region_selected page2 →
             culture_new w ∈ culture_selected page2 →
             form_row w ∈ map_layer page2))
       ∧ (regions_ui w2 = None → cultures_ui w2 = None →
          ∃ page2 ss2 srv2,
            app w2 (final_session (app w ss srv))
                (final_server (app w ss srv))
            = Ok page2 ss2 srv2
            ∧ form_row w ∈ map_layer page2)).
Proof.
  intros Hd Hs Hnew.
  assert (Hi : initial_data ss srv = Some d)
    by (unfold initial_data; by rewrite Hd).
  pose proof (app_closed w ss srv d Hi) as Hrun.
  pose proof (app_closed (released w) ss srv d Hi) as Hrun0.
  cbv zeta in Hrun, Hrun0. rewrite Hs in Hrun.
  cbn [submit released regions_ui cultures_ui andb] in Hrun0.
  rewrite Hd, (insert_id ss "data" d Hd) in Hrun0.
  replace {| fs := fs srv; cache := cache srv; logo := logo srv;
             writable := writable srv |} with srv in Hrun0
    by (by destruct srv).
  set (Rs := multiselect _ _ (regions_ui w)) in *.
  set (Cs := multiselect _ _ (cultures_ui w)) in *.
  assert (HRs : ∀ v, v ∈ Rs → v ∈ map region (rows d)).
  { intros v Hv. unfold Rs in Hv.
    apply multiselect_options in Hv. by rewrite elem_of_unique in Hv. }
  assert (HCs : ∀ v, v ∈ Cs → v ∈ map culture (rows d)).
  { intros v Hv. unfold Cs in Hv.
    apply multiselect_options in Hv. by rewrite elem_of_unique in Hv. }
  assert (Hout : region (form_row w) ∉ Rs ∨ culture (form_row w) ∉ Cs).
  { cbn. destruct Hnew as [Hr|Hc]; [left|right]; intros Hin;
      [apply Hr, HRs | apply Hc, HCs]; done. }
  assert (Hview : filtered_gdf (rows (concat d (mkGdf (crs d) [form_row w])))
                    Rs Cs = filtered_gdf (rows d) Rs Cs).
  { cbn [concat rows]. by apply filtered_gdf_snoc_out. }
  rewrite Hview in Hrun.
  split; [|split].
  - intros page ss' srv' Hok. rewrite Hok in Hrun.
    destruct (logo srv); [|discriminate Hrun].
    destruct (gdf_empty (rows d)); [discriminate Hrun|].
    destruct (true && negb (writable srv)); [discriminate Hrun|].
    destruct (gdf_empty (filtered_gdf (rows d) Rs Cs)) eqn:Hv;
      [discriminate Hrun|].
    injection Hrun as -> _ _.
    cbn [region_options culture_options region_selected culture_selected
         map_layer metric_count metric_area chart warning table download].
    do 4 (split; [done|]).
    split.
    { rewrite elem_of_filtered_gdf. intros (_ & Hr & Hc).
      destruct Hout; done. }
    eexists. split; [exact Hrun0|]. done.
  - intros Hw page0 ss0 srv0 Hok0. rewrite Hok0 in Hrun0.
    rewrite Hrun, Hw.
    destruct (logo srv); [|discriminate Hrun0].
    destruct (gdf_empty (rows d)); [discriminate Hrun0|].
    destruct (gdf_empty (filtered_gdf (rows d) Rs Cs));
      [discriminate Hrun0|]. cbn. eauto.
  - intros Hlogo Hrows w2 Hs2.
    destruct (app_state w ss srv d Hi) as [Hss Hsrv]. cbv zeta in Hss, Hsrv.
    apply gdf_empty_false in Hrows.
    rewrite Hlogo, Hrows, Hs in Hss, Hsrv. cbn [andb negb] in Hss, Hsrv.
    set (d' := concat d (mkGdf (crs d) [form_row w])) in *.
    set (ss1 := final_session (app w ss srv)) in *.
    set (srv1 := final_server (app w ss srv)) in *.
    assert (Hd1 : ss1 !! "data" = Some d')
      by (rewrite Hss; apply lookup_insert_eq).
    assert (Hi1 : initial_data ss1 srv1 = Some d')
      by (unfold initial_data; by rewrite Hd1).
    assert (Hin : form_row w ∈ rows d').
    { subst d'. cbn [concat rows]. apply elem_of_app. right. by left. }
    assert (Hro : region_new w ∈ unique (map region (rows d')))
      by (apply elem_of_unique; by apply (list_elem_of_fmap_2 region) in Hin).
    assert (Hco : culture_new w ∈ unique (map culture (rows d')))
      by (apply elem_of_unique; by apply (list_elem_of_fmap_2 culture) in Hin).
    split.
    + intros page2 ss2 srv2 Hok2.
      destruct (app_rendered w2 ss1 srv1 d' page2 ss2 srv2 Hi1 Hok2)
        as (_ & _ & _ & d2 & -> & _ & -> & -> & _ & _ & _ & Hpage).
      cbv zeta in Hpage. destruct Hpage as (_ & -> & _).
      rewrite Hs2. split; [done|]. split; [done|].
      intros Hr2 Hc2. by apply elem_of_filtered_gdf.
    + intros Hr2 Hc2.
      assert (Hall : filtered_gdf (rows d')
                       (multiselect (unique (map region (rows d')))
                          (unique (map region (rows d'))) (regions_ui w2))
                       (multiselect (unique (map culture (rows d')))
                          (unique (map culture (rows d'))) (cultures_ui w2))
                     = rows d').
      { rewrite Hr2, Hc2. cbn [multiselect]. apply filtered_gdf_default. }
      destruct (app_completes w2 ss1 srv1 d' Hi1)
        as (page2 & ss2 & srv2 & Hok2).
      * by rewrite Hsrv.
      * intros E. rewrite E in Hin. by apply not_elem_of_nil in Hin.
      * by rewrite Hs2.
      * rewrite Hs2, Hall. intros E. rewrite E in Hin.
        by apply not_elem_of_nil in Hin.
      * exists page2, ss2, srv2. split; [done|].
        destruct (app_rendered w2 ss1 srv1 d' page2 ss2 srv2 Hi1 Hok2)
          as (_ & _ & _ & d2 & -> & _ & Ho1 & Ho2 & Hs1 & Hs2' & _ & Hpage).
        cbv zeta in Hpage. destruct Hpage as (_ & -> & _).
        rewrite Hs1, Hs2', Ho1, Ho2, Hs2, Hall. done.
Qed.

End Properties.

(** * Further properties of the script *)

Section Coverage.

Context {num : Type} {NUM : Numeric num}.

Implicit Types (data view : list (Row num)) (d : GeoDataFrame num).
Implicit Types (R C : list string) (r : Row num) (w : Widgets num).
Implicit Types (ss : gmap string (GeoDataFrame num)) (srv : Server num).

(** ** Where a run stops *)

(** A run stops in one of five ways, tried in this order: no collection
    can be loaded; the logo does not open; the collection has no record,
    hence no [region] column; the form is submitted and the file cannot be
    written; the filtered view is empty, which the map does not take.
    Otherwise it renders the page. *)
Theorem run_stops_in_five_ways w ss srv :
  match initial_data ss srv with
  | None => app w ss srv = Raise DataUnavailable ss srv
  | Some d =>
      let ro := unique (map region (rows d)) in
      let co := unique (map culture (rows d)) in
      let d' := if submit w then concat d (mkGdf (crs d) [form_row w])
                else d in
      let view := filtered_gdf (rows d') (multiselect ro ro (regions_ui w))
                      (multiselect co co (cultures_ui w)) in
      raised (app w ss srv)
      = (if logo srv then
           if gdf_empty (rows d) then Some (KeyError "region")
           else if submit w && negb (writable srv) then Some WriteFailed
           else if gdf_empty view then Some IndexError
           else None
         else Some LogoUnavailable)
      ∧ (is_Some (rendered (app w ss srv)) ↔ raised (app w ss srv) = None)
  end.
Proof.
  destruct (initial_data ss srv) as [d|] eqn:Hi;
    [|by apply app_unavailable].
  split; [by apply app_raised|].
  destruct (app w ss srv); cbn; split; (done || by intros [? ?] || eauto).
Qed.

(** ** Viewing *)

(** A run without a submission never writes the file, whether it
    completes or not; in a session that already holds a collection it
    leaves the session and the server exactly as they were. *)
Theorem viewing_never_writes w ss srv :
  submit w = false →
  fs (final_server (app w ss srv)) = fs srv
  ∧ (is_Some (ss !! "data") →
     final_session (app w ss srv) = ss ∧ final_server (app w ss srv) = srv).
Proof.
  intros Hs. destruct (initial_data ss srv) as [d|] eqn:Hi.
  - destruct (app_state w ss srv d Hi) as [Hss Hsrv]. cbv zeta in Hss, Hsrv.
    rewrite Hs, !andb_false_r in Hss, Hsrv. cbn [andb] in Hsrv.
    rewrite Hss, Hsrv. cbn [fs]. split; [done|]. intros [d0 Hd0].
    unfold initial_data in Hi. rewrite Hd0 in Hi. injection Hi as ->.
    rewrite Hd0, (insert_id ss "data" d Hd0). by destruct srv.
  - rewrite (app_unavailable w ss srv Hi). cbn. split; [done|].
    intros [d0 Hd0]. unfold initial_data in Hi. by rewrite Hd0 in Hi.
Qed.

(** Once a session holds a collection, its runs read neither the file nor
    the memo: on two servers that agree on the logo, and on whether the
    file can be written when the form is submitted, the run stops at the
    same place or renders the same page, and leaves the same session. *)
Theorem open_session_ignores_file w ss d srv1 srv2 :
  ss !! "data" = Some d →
  logo srv1 = logo srv2 →
  (submit w = true → writable srv1 = writable srv2) →
  rendered (app w ss srv1) = rendered (app w ss srv2)
  ∧ raised (app w ss srv1) = raised (app w ss srv2)
  ∧ final_session (app w ss srv1) = final_session (app w ss srv2).
Proof.
  intros Hd Hlogo Hw.
  assert (Hi : ∀ srv, initial_data ss srv = Some d)
    by (intros srv; unfold initial_data; by rewrite Hd).
  pose proof (app_closed w ss srv1 d (Hi srv1)) as H1.
  pose proof (app_closed w ss srv2 d (Hi srv2)) as H2.
  cbv zeta in H1, H2. rewrite H1, H2, Hlogo. clear H1 H2.
  destruct (logo srv2); [|done].
  destruct (gdf_empty (rows d)); [done|].
  destruct (submit w).
  - rewrite (Hw eq_refl). destruct (writable srv2); cbn [andb negb]; [|done].
    by destruct (gdf_empty _).
  - cbn [andb]. by destruct (gdf_empty _).
Qed.

(** A session without a collection is served the memoised frame when there
    is one, whatever the file holds at that time, even nothing: the session
    ends up holding it, with at most the form's record appended, the
    options of a rendered page come from it, and the memo stays as it
    is. *)
Theorem new_session_gets_memoised_frame w ss srv c :
  ss !! "data" = None → cache srv = Some c →
  cache (final_server (app w ss srv)) = Some c
  ∧ (∃ d', final_session (app w ss srv) !! "data" = Some d'
           ∧ rows c `prefix_of` rows d'
           ∧ (submit w = false → d' = c))
  ∧ (∀ page ss' srv',
       app w ss srv = Ok page ss' srv' →
       region_options page = unique (map region (rows c))
       ∧ culture_options page = unique (map culture (rows c))).
Proof.
  intros Hn Hc.
  assert (Hi : initial_data ss srv = Some c)
    by (unfold initial_data; by rewrite Hn, Hc).
  destruct (app_state w ss srv c Hi) as [Hss Hsrv]. cbv zeta in Hss, Hsrv.
  rewrite Hss, Hsrv, Hn. cbn [cache]. split; [done|]. split.
  - eexists. split; [apply lookup_insert_eq|]. split.
    + destruct (_ && submit w); [|done]. cbn. by apply prefix_app_r.
    + intros ->. by rewrite !andb_false_r.
  - intros page ss' srv' Hrun.
    by destruct (app_rendered w ss srv c page ss' srv' Hi Hrun)
      as (_ & _ & _ & d' & _ & _ & ? & ? & _).
Qed.

(** ** The filter options *)

(** On every page the run renders, each filter offers every value that
    occurs in the collection the run started from, each once, and nothing
    else; what is selected is always among what is offered, and an
    untouched filter selects all of it. *)
Theorem filter_options_distinct_and_complete w ss srv d page ss' srv' :
  initial_data ss srv = Some d →
  app w ss srv = Ok page ss' srv' →
  NoDup (region_options page) ∧ NoDup (culture_options page)
  ∧ (∀ v, v ∈ region_options page ↔ ∃ r, r ∈ rows d ∧ region r = v)
  ∧ (∀ v, v ∈ culture_options page ↔ ∃ r, r ∈ rows d ∧ culture r = v)
  ∧ (∀ v, v ∈ region_selected page → v ∈ region_options page)
  ∧ (∀ v, v ∈ culture_selected page → v ∈ culture_options page)
  ∧ (regions_ui w = None → region_selected page = region_options page)
  ∧ (cultures_ui w = None → culture_selected page = culture_options page).
Proof.
  intros Hi Hrun.
  destruct (app_rendered w ss srv d page ss' srv' Hi Hrun)
    as (_ & _ & _ & d' & _ & _ & Hro & Hco & Hrs & Hcs & _).
  rewrite Hrs, Hcs, Hro, Hco.
  split; [apply NoDup_unique|]. split; [apply NoDup_unique|].
  split.
  { intros v. rewrite elem_of_unique, list_elem_of_fmap.
    split; intros (r & ? & ?); by exists r. }
  split.
  { intros v. rewrite elem_of_unique, list_elem_of_fmap.
    split; intros (r & ? & ?); by exists r. }
  split; [intros v; apply multiselect_options|].
  split; [intros v; apply multiselect_options|].
  split; by intros ->.
Qed.

(** With both filters untouched and nothing submitted, a collection that
    has a record is shown whole, in its order, provided the logo opens. *)
Theorem untouched_filters_show_everything w ss srv d :
  initial_data ss srv = Some d →
  logo srv = true → rows d ≠ [] →
  regions_ui w = None → cultures_ui w = None → submit w = false →
  ∃ page ss' srv',
    app w ss srv = Ok page ss' srv'
    ∧ map_layer page = rows d
    ∧ metric_count page = length (rows d)
    ∧ length (body (table page)) = length (rows d).
Proof.
  intros Hi Hlogo Hrows Hr Hc Hs.
  assert (Hall : filtered_gdf (rows d)
                   (multiselect (unique (map region (rows d)))
                      (unique (map region (rows d))) (regions_ui w))
                   (multiselect (unique (map culture (rows d)))
                      (unique (map culture (rows d))) (cultures_ui w))
                 = rows d).
  { rewrite Hr, Hc. cbn [multiselect]. apply filtered_gdf_default. }
  destruct (app_completes w ss srv d Hi Hlogo Hrows)
    as (page & ss' & srv' & Hrun).
  { by rewrite Hs. }
  { by rewrite Hs, Hall. }
  exists page, ss', srv'. split; [done|].
  destruct (app_rendered w ss srv d page ss' srv' Hi Hrun)
    as (_ & _ & _ & d' & -> & _ & Hro & Hco & Hrs & Hcs & _ & Hpage).
  cbv zeta in Hpage. rewrite Hs in Hpage.
  rewrite Hrs, Hcs, Hro, Hco, Hall in Hpage.
  destruct Hpage as (_ & Hmap & Hcount & _ & _ & _ & Htable & _).
  rewrite Htable. cbn [body]. by rewrite length_map.
Qed.

(** What a rendered page shows is always part of the collection the
    session holds when the run ends, in the same order, and it is never
    empty: the count is at least one and at most the size of the
    collection. *)
Theorem view_is_part_of_collection w ss srv d page ss' srv' :
  initial_data ss srv = Some d →
  app w ss srv = Ok page ss' srv' →
  ∃ d',
    ss' !! "data" = Some d'
    ∧ map_layer page `sublist_of` rows d'
    ∧ (1 ≤ metric_count page ≤ length (rows d'))%nat.
Proof.
  intros Hi Hrun.
  destruct (app_rendered w ss srv d page ss' srv' Hi Hrun)
    as (_ & _ & _ & d' & _ & Hd' & _ & _ & _ & _ & _ & Hpage).
  cbv zeta in Hpage. destruct Hpage as (Hne & Hmap & Hcount & _).
  exists d'. split; [done|].
  rewrite Hmap, Hcount. split.
  - rewrite filtered_gdf_filter. apply sublist_filter.
  - split.
    + destruct (filtered_gdf _ _ _); [done | cbn; lia].
    + rewrite filtered_gdf_filter. apply sublist_length, sublist_filter.
Qed.

(** ** The metrics *)

(** On every rendered page the count is the number of records of the
    filtered view and the area is the sum of the view's [superficie]
    column, as pandas computes it, rounded by [round(_, 2)]; the view is
    the filter of the collection the session holds when the run ends. *)
Theorem metrics_of_rendered_view w ss srv page ss' srv' :
  app w ss srv = Ok page ss' srv' →
  ∃ d',
    ss' !! "data" = Some d'
    ∧ map_layer page
      = filtered_gdf (rows d') (region_selected page) (culture_selected page)
    ∧ metric_count page = length (map_layer page)
    ∧ metric_area page
      = round2 (series_sum (map superficie (map_layer page))).
Proof.
  intros Hrun. destruct (initial_data ss srv) as [d|] eqn:Hi.
  2:{ by rewrite (app_unavailable w ss srv Hi) in Hrun. }
  destruct (app_rendered w ss srv d page ss' srv' Hi Hrun)
    as (_ & _ & _ & d' & _ & Hd' & _ & _ & _ & _ & _ & Hpage).
  cbv zeta in Hpage. destruct Hpage as (_ & Hmap & Hcount & Harea & _).
  exists d'. rewrite Hmap, Hcount, Harea. done.
Qed.

(** ** The submitting run *)

(** On the page of a submitting run, the view is the view of the earlier
    records, followed by the new record exactly when its region and its
    culture are both selected. *)
Theorem submitted_record_shown_iff_selected w ss srv d page ss' srv' :
  ss !! "data" = Some d → submit w = true →
  app w ss srv = Ok page ss' srv' →
  map_layer page
  = filtered_gdf (rows d) (region_selected page) (culture_selected page)
    ++ (if decide (region_new w ∈ region_selected page
                   ∧ culture_new w ∈ culture_selected page)
        then [form_row w] else [])
  ∧ (form_row w ∈ map_layer page
     ↔ region_new w ∈ region_selected page
       ∧ culture_new w ∈ culture_selected page).
Proof.
  intros Hd Hs Hrun.
  assert (Hi : initial_data ss srv = Some d)
    by (unfold initial_data; by rewrite Hd).
  destruct (app_rendered w ss srv d page ss' srv' Hi Hrun)
    as (_ & _ & _ & d' & -> & _ & _ & _ & _ & _ & _ & Hpage).
  cbv zeta in Hpage. rewrite Hs in Hpage.
  destruct Hpage as (_ & -> & _). cbn [concat rows]. split.
  - rewrite !filtered_gdf_filter, filter_app, filter_cons, filter_nil.
    cbn [form_row region culture]. by repeat case_decide.
  - rewrite elem_of_filtered_gdf. cbn [form_row region culture].
    split; [tauto|]. intros [Hr Hc].
    split; [|done]. apply elem_of_app. right. by left.
Qed.

(** A submission made while the view is empty is kept although the run
    renders nothing: the run stops at the map after the handler has put the
    record in the session and rewritten the file. *)
Theorem submission_with_empty_view_is_saved w ss srv d :
  ss !! "data" = Some d → submit w = true →
  logo srv = true → rows d ≠ [] → writable srv = true →
  filtered_gdf (rows d ++ [form_row w])
    (multiselect (unique (map region (rows d)))
                 (unique (map region (rows d))) (regions_ui w))
    (multiselect (unique (map culture (rows d)))
                 (unique (map culture (rows d))) (cultures_ui w)) = [] →
  app w ss srv
  = Raise IndexError
      (<["data" := concat d (mkGdf (crs d) [form_row w])]> ss)
      {| fs := Some (stored_frame (concat d (mkGdf (crs d) [form_row w])));
         cache := cache srv; logo := logo srv; writable := writable srv |}.
Proof.
  intros Hd Hs Hlogo Hrows Hw Hview.
  assert (Hi : initial_data ss srv = Some d)
    by (unfold initial_data; by rewrite Hd).
  pose proof (app_closed w ss srv d Hi) as Hc. cbv zeta in Hc.
  apply gdf_empty_false in Hrows. apply gdf_empty_true in Hview.
  rewrite Hc, Hlogo, Hrows, Hs, Hw, Hd. cbn [andb negb concat rows].
  by rewrite Hview.
Qed.

(** When the file cannot be written, a submission stops the run at the
    write: the session already holds the new record, the file does not,
    and nothing is rendered. *)
Theorem failed_write_leaves_record_in_session_only w ss srv d :
  ss !! "data" = Some d → submit w = true →
  logo srv = true → rows d ≠ [] → writable srv = false →
  app w ss srv
  = Raise WriteFailed
      (<["data" := concat d (mkGdf (crs d) [form_row w])]> ss) srv.
Proof.
  intros Hd Hs Hlogo Hrows Hw.
  assert (Hi : initial_data ss srv = Some d)
    by (unfold initial_data; by rewrite Hd).
  pose proof (app_closed w ss srv d Hi) as Hc. cbv zeta in Hc.
  apply gdf_empty_false in Hrows.
  rewrite Hc, Hrows, Hs, Hd. clear Hc Hi.
  destruct srv as [f c l wr]. cbn in Hlogo, Hw. subst l wr. done.
Qed.

(** ** The export *)

(** On every rendered page the export has the header line and then as
    many lines as the count shows, and every line has as many fields as
    the table has columns. *)
Theorem export_is_rectangular w ss srv page ss' srv' :
  app w ss srv = Ok page ss' srv' →
  length (download page) = S (metric_count page)
  ∧ length (body (table page)) = metric_count page
  ∧ Forall (fun line => length line = length (columns (table page)))
           (download page).
Proof.
  intros Hrun. destruct (initial_data ss srv) as [d|] eqn:Hi.
  2:{ by rewrite (app_unavailable w ss srv Hi) in Hrun. }
  destruct (app_rendered w ss srv d page ss' srv' Hi Hrun)
    as (_ & _ & _ & d' & _ & _ & _ & _ & _ & _ & _ & Hpage).
  cbv zeta in Hpage.
  destruct Hpage as (_ & _ & Hcount & _ & _ & _ & Htable & Hcsv).
  rewrite Hcsv, Htable, Hcount. cbn [columns body length].
  rewrite !length_map. split; [done|]. split; [done|].
  constructor; [done|]. apply Forall_fmap, Forall_forall. by intros r _.
Qed.

(** ** Selecting *)

(** Only the set of selected values matters to the filter: the order in
    which values were picked, and picking one twice, change nothing. *)
Theorem filter_selection_as_set data R R' C C' :
  (∀ v, v ∈ R ↔ v ∈ R') → (∀ v, v ∈ C ↔ v ∈ C') →
  filtered_gdf data R C = filtered_gdf data R' C'.
Proof.
  intros HR HC. rewrite !filtered_gdf_filter.
  induction data as [|r data IH]; [done|].
  rewrite !filter_cons, IH.
  destruct (decide (region r ∈ R ∧ culture r ∈ C)) as [Hin|Hout].
  - rewrite decide_True; [done|]. by rewrite <- HR, <- HC.
  - rewrite decide_False; [done|]. by rewrite <- HR, <- HC.
Qed.

(** Filtering a filtered view again is filtering the collection once with
    the values common to both selections. *)
Theorem filter_narrowing_composes data R R' C C' :
  filtered_gdf (filtered_gdf data R C) R' C'
  = filtered_gdf data (filter (fun v => v ∈ R') R) (filter (fun v => v ∈ C') C).
Proof.
  rewrite !filtered_gdf_filter.
  induction data as [|r data IH]; [done|].
  rewrite !filter_cons.
  destruct (decide (region r ∈ R ∧ culture r ∈ C)) as [[Hr Hc]|Hout].
  - rewrite filter_cons, IH.
    destruct (decide (region r ∈ R' ∧ culture r ∈ C')) as [[Hr' Hc']|Hout'].
    + rewrite decide_True; [done|]. by rewrite !list_elem_of_filter.
    + rewrite decide_False; [done|]. rewrite !list_elem_of_filter. tauto.
  - rewrite IH, decide_False; [done|]. rewrite !list_elem_of_filter. tauto.
Qed.

(** ** The chart *)

Lemma length_unique_from seen xs :
  (length (unique_from seen xs) ≤ length xs)%nat.
Proof.
  revert seen. induction xs as [|x xs IH]; intros seen; cbn; [lia|].
  case_bool_decide; [specialize (IH seen) | specialize (IH (x :: seen))];
    cbn; lia.
Qed.

Lemma count_one_key (k : string) (ks : list string) :
  NoDup ks → k ∈ ks →
  sum_list (map (fun k' => if decide (k = k') then 1 else 0) ks) = 1.
Proof.
  induction 1 as [|k0 ks Hk0 Hnd IH]; [by intros ?%not_elem_of_nil|].
  intros [->|Hin]%elem_of_cons; cbn.
  - rewrite decide_True by done.
    assert (sum_list (map (fun k' => if decide (k0 = k') then 1 else 0) ks)
            = 0) as ->; [|done].
    clear IH Hnd. induction ks as [|k1 ks IH]; [done|]. cbn.
    apply not_elem_of_cons in Hk0 as [Hne Hk0].
    rewrite decide_False by done. by rewrite IH.
  - rewrite decide_False by (intros ->; contradiction). by rewrite IH.
Qed.

(** Keys that cover every culture of the view, each once, split the view
    into groups without losing or repeating a record. *)
Lemma groups_cover view (ks : list string) :
  NoDup ks → (∀ r, r ∈ view → culture r ∈ ks) →
  sum_list (map (fun k => length (filter (fun r => culture r = k) view)) ks)
  = length view.
Proof.
  intros Hnd. induction view as [|r view IH]; intros Hcov.
  - clear. induction ks as [|k ks IHk]; [done|]. cbn in *. exact IHk.
  - assert (Hsplit :
      sum_list (map (fun k => length (filter (fun r0 => culture r0 = k)
                                             (r :: view))) ks)
      = sum_list (map (fun k => if decide (culture r = k) then 1 else 0) ks)
        + sum_list (map (fun k => length (filter (fun r0 => culture r0 = k)
                                                 view)) ks)).
    { clear. induction ks as [|k ks IHk]; [done|].
      cbn [map sum_list_with]. rewrite IHk, filter_cons. unfold id.
      case_decide; cbn [length]; lia. }
    rewrite Hsplit, count_one_key by (done || apply Hcov; left).
    rewrite IH; [done|]. intros r' Hr'. apply Hcov. by right.
Qed.

(** On every rendered page the chart is drawn, with one bar per culture
    present in the view, each culture once, in increasing order; the bar
    of a culture is the mean, as pandas computes it, of [rendement_kg_ha]
    over the records of that culture in the view. The bars split the view:
    the sizes of their groups add up to the count, there is at least one
    bar and at most one per record, and every bar belongs to a selected
    culture. *)
Theorem chart_bars_partition_view w ss srv page ss' srv' :
  app w ss srv = Ok page ss' srv' →
  ∃ bars,
    chart page = Some bars
    ∧ warning page = None
    ∧ NoDup bars.*1
    ∧ Sorted str_le bars.*1
    ∧ (∀ k, k ∈ bars.*1 ↔ ∃ r, r ∈ map_layer page ∧ culture r = k)
    ∧ (∀ k v, (k, v) ∈ bars →
         v = series_mean
               (map rendement_kg_ha
                    (filter (fun r => culture r = k) (map_layer page))))
    ∧ sum_list
        (map (fun bar =>
                length (filter (fun r => culture r = bar.1) (map_layer page)))
             bars)
      = metric_count page
    ∧ (0 < length bars ≤ metric_count page)%nat
    ∧ (∀ k, k ∈ bars.*1 → k ∈ culture_selected page).
Proof.
  intros Hrun. destruct (initial_data ss srv) as [d|] eqn:Hi.
  2:{ by rewrite (app_unavailable w ss srv Hi) in Hrun. }
  destruct (app_rendered w ss srv d page ss' srv' Hi Hrun)
    as (_ & _ & _ & d' & _ & _ & _ & _ & _ & _ & _ & Hpage).
  cbv zeta in Hpage.
  destruct Hpage as (Hne & Hmap & Hcount & _ & Hchart & Hwarn & _).
  rewrite Hmap, Hcount, Hchart.
  remember (filtered_gdf (rows d') (region_selected page)
              (culture_selected page)) as view eqn:Eview.
  exists (groupby_mean view). split; [done|]. split; [done|].
  split; [apply NoDup_groupby_keys|].
  split; [apply Sorted_groupby_keys|].
  split; [apply elem_of_groupby_keys|].
  split; [apply elem_of_groupby_mean|].
  assert (Hkeys : length (groupby_mean view) = length (groupby_mean view).*1)
    by (by rewrite length_fmap).
  split; [|split].
  - rewrite <- (groups_cover view (groupby_mean view).*1).
    + by rewrite <- list_fmap_compose.
    + apply NoDup_groupby_keys.
    + intros r Hr. apply elem_of_groupby_keys. by exists r.
  - rewrite Hkeys. split.
    + destruct view as [|r0 view0]; [done|].
      assert (culture r0 ∈ (groupby_mean (r0 :: view0)).*1) as Hin.
      { apply elem_of_groupby_keys. exists r0. split; [by left|done]. }
      destruct ((groupby_mean (r0 :: view0)).*1);
        [by apply not_elem_of_nil in Hin|].
      cbn. lia.
    + rewrite groupby_mean_keys, merge_sort_Permutation.
      etrans; [apply length_unique_from|]. by rewrite length_map.
  - intros k (r & Hr & <-)%elem_of_groupby_keys.
    rewrite Eview in Hr. apply elem_of_filtered_gdf in Hr. tauto.
Qed.

(** ** Histories of several sessions *)

Lemma session_of_Some sid (a : App num) ss :
  sessions a !! sid = Some ss → session_of sid a = ss.
Proof. unfold session_of. by intros ->. Qed.

Lemma session_of_None sid (a : App num) :
  sessions a !! sid = None → session_of sid a = ∅.
Proof. unfold session_of. by intros ->. Qed.

(** An interaction touches the state of the acting session only. *)
Lemma interact_other_session sid sid' w (a : App num) :
  sid ≠ sid' →
  sessions (interact sid w a).2 !! sid' = sessions a !! sid'.
Proof.
  intros Hne. unfold interact.
  destruct (app w (session_of sid a) (server a));
    cbn [snd sessions]; by rewrite lookup_insert_ne.
Qed.

Lemma interact_final sid w (a : App num) :
  (interact sid w a).2
  = {| server := final_server (app w (session_of sid a) (server a));
       sessions :=
         <[sid := final_session (app w (session_of sid a) (server a))]>
           (sessions a) |}.
Proof.
  unfold interact. by destruct (app w (session_of sid a) (server a)).
Qed.

Lemma interact_rendered sid w (a : App num) :
  (interact sid w a).1 = rendered (app w (session_of sid a) (server a)).
Proof.
  unfold interact. by destruct (app w (session_of sid a) (server a)).
Qed.

(** The state an interaction leaves when a collection is available: the
    handler is reached when the logo opens, the collection has a record and
    the form is submitted; the file is rewritten when it is reached and the
    file can be written. *)
Lemma interact_available sid w (a : App num) d :
  initial_data (session_of sid a) (server a) = Some d →
  let reached :=
    logo (server a) && negb (gdf_empty (rows d)) && submit w in
  let d' := if reached then concat d (mkGdf (crs d) [form_row w]) else d in
  (interact sid w a).2
  = {| server :=
         {| fs := if reached && writable (server a)
                  then Some (stored_frame d') else fs (server a);
            cache := match session_of sid a !! "data" with
                     | Some _ => cache (server a)
                     | None => Some d
                     end;
            logo := logo (server a);
            writable := writable (server a) |};
       sessions :=
         <[sid := <["data" := d']> (session_of sid a)]> (sessions a) |}.
Proof.
  intros Hi reached d'. rewrite interact_final.
  destruct (app_state w (session_of sid a) (server a) d Hi) as [Hss Hsrv].
  cbv zeta in Hss, Hsrv. by rewrite Hss, Hsrv.
Qed.

Lemma interact_unavailable sid w (a : App num) :
  initial_data (session_of sid a) (server a) = None →
  interact sid w a
  = (None, {| server := server a;
              sessions := <[sid := session_of sid a]> (sessions a) |}).
Proof.
  intros Hi. unfold interact. by rewrite (app_unavailable _ _ _ Hi).
Qed.

(** The memo holds the file as the first load found it, and no later run
    of any session replaces it: appends rewrite the file, never the
    memo. *)
Theorem memo_is_the_first_load (file : GeoDataFrame num) events :
  events ≠ [] →
  cache (server (replay events (boot (Some file)))) = Some file.
Proof.
  assert (Hkeep : ∀ evs (a : App num),
            cache (server a) = Some file →
            cache (server (replay evs a)) = Some file).
  { induction evs as [|[sid w] evs IH]; intros a Hc; [done|].
    cbn [replay]. apply IH.
    destruct (initial_data (session_of sid a) (server a)) as [d|] eqn:Hi.
    - rewrite (interact_available sid w a d Hi).
      cbn [server cache]. unfold initial_data in Hi.
      destruct (session_of sid a !! "data"); [done|].
      rewrite Hc in Hi. by injection Hi as ->.
    - by rewrite (interact_unavailable sid w a Hi). }
  destruct events as [|[sid w] events]; [done|]. intros _.
  cbn [replay]. apply Hkeep.
  assert (Hi : initial_data (session_of sid (boot (Some file)))
                 (server (boot (Some file))) = Some file) by done.
  by rewrite (interact_available sid w _ file Hi).
Qed.

(** Whatever the sessions do, the records the file held when the server
    started stay, in their order, at the head of every session's
    collection: the script never removes or changes a record in memory.
    The file always holds at least as many records as it did, and it is
    either still the file the server started with or begins with those
    records as the writer stores them, with their culture and region
    unchanged. *)
Theorem original_records_are_kept (file : GeoDataFrame num) events :
  let a := replay events (boot (Some file)) in
  (∃ f, fs (server a) = Some f
        ∧ (f = file ∨ map stored_row (rows file) `prefix_of` rows f)
        ∧ map culture (rows file) `prefix_of` map culture (rows f)
        ∧ map region (rows file) `prefix_of` map region (rows f)
        ∧ (length (rows file) ≤ length (rows f))%nat)
  ∧ (∀ sid ss d,
       sessions a !! sid = Some ss → ss !! "data" = Some d →
       rows file `prefix_of` rows d).
Proof.
  set (kept (f : GeoDataFrame num) :=
         f = file ∨ ∃ d, f = stored_frame d ∧ rows file `prefix_of` rows d).
  assert (Hinv : ∀ evs (a : App num),
    (∃ f, fs (server a) = Some f ∧ kept f) →
    (∀ c, cache (server a) = Some c → rows file `prefix_of` rows c) →
    (cache (server a) = None →
     fs (server a) = Some file
     ∧ ∀ sid ss, sessions a !! sid = Some ss → ss !! "data" = None) →
    (∀ sid ss d, sessions a !! sid = Some ss → ss !! "data" = Some d →
                 rows file `prefix_of` rows d) →
    (∃ f, fs (server (replay evs a)) = Some f ∧ kept f)
    ∧ (∀ sid ss d,
         sessions (replay evs a) !! sid = Some ss →
         ss !! "data" = Some d → rows file `prefix_of` rows d)).
  { induction evs as [|[sid w] evs IH]; intros a Hfs Hc Hcold Hss; [done|].
    cbn [replay].
    assert (Hss' : ∀ d, session_of sid a !! "data" = Some d →
                        rows file `prefix_of` rows d).
    { intros d Hd. unfold session_of in Hd.
      destruct (sessions a !! sid) as [ss|] eqn:Hs; cbn in Hd; [eauto|done]. }
    destruct Hfs as (f0 & Hfs & Hk0).
    destruct (initial_data (session_of sid a) (server a)) as [d|] eqn:Hi.
    2:{ unfold initial_data in Hi.
        destruct (session_of sid a !! "data"); [done|].
        destruct (cache (server a)); [done|]. by rewrite Hfs in Hi. }
    assert (Hpd : rows file `prefix_of` rows d).
    { unfold initial_data in Hi.
      destruct (session_of sid a !! "data") as [d1|] eqn:Hd1.
      { injection Hi as <-. by apply Hss'. }
      destruct (cache (server a)) as [c|] eqn:Hc1.
      { injection Hi as <-. by apply Hc. }
      destruct (Hcold eq_refl) as [Hfile _].
      rewrite Hfile in Hi. by injection Hi as <-. }
    rewrite (interact_available sid w a d Hi). cbv zeta.
    set (reached := logo (server a) && negb (gdf_empty (rows d)) && submit w).
    set (d' := if reached then concat d (mkGdf (crs d) [form_row w]) else d).
    assert (Hpd' : rows file `prefix_of` rows d').
    { subst d'. destruct reached; [|done]. by apply prefix_app_r. }
    apply IH; cbn [server sessions fs cache].
    - destruct (reached && writable (server a)); [|eauto].
      eexists. split; [done|]. right. by exists d'.
    - intros c. destruct (session_of sid a !! "data"); [apply Hc|].
      by intros [= <-].
    - destruct (session_of sid a !! "data") as [d1|] eqn:Hd1; [|done].
      intros Hnone. destruct (Hcold Hnone) as [_ Hall].
      unfold session_of in Hd1.
      destruct (sessions a !! sid) as [ss|] eqn:Hs; cbn in Hd1.
      + by rewrite (Hall sid ss Hs) in Hd1.
      + by rewrite lookup_empty in Hd1.
    - intros sid1 ss1 d1. destruct (decide (sid = sid1)) as [<-|Hne].
      + rewrite lookup_insert_eq. intros [= <-].
        rewrite lookup_insert_eq. by intros [= <-].
      + rewrite lookup_insert_ne by done. apply Hss. }
  cbv zeta.
  destruct (Hinv events (boot (Some file))) as [(f & Hf & Hk) Hss]; cbn.
  - exists file. split; [done|]. by left.
  - done.
  - intros _. split; [done|]. intros sid ss. by rewrite lookup_empty.
  - intros sid ss d. by rewrite lookup_empty.
  - split; [|done]. exists f. split; [done|].
    destruct Hk as [->|(d & -> & Hp)]; [by split_and!; [left|..]|].
    assert (Hp' : map stored_row (rows file) `prefix_of` map stored_row (rows d)).
    { destruct Hp as [k ->]. rewrite map_app. by eexists. }
    cbn [stored_frame rows]. split_and!.
    + by right.
    + destruct Hp as [k ->]. rewrite !map_app, !map_map. cbn. by eexists.
    + destruct Hp as [k ->]. rewrite !map_app, !map_map. cbn. by eexists.
    + rewrite length_map. by apply prefix_length.
Qed.

(** The collection of an open session is what it held before, followed by
    the records that this same session has submitted since, in the order
    of submission, when the logo opens and the collection had a record to
    begin with; when either fails the script stops before the form's
    handler at every run, and the collection stays as it was. Runs of
    other sessions, and what they write to the file, never reach it. *)
Theorem session_holds_its_own_submissions sid events (a : App num) ss d :
  sessions a !! sid = Some ss → ss !! "data" = Some d →
  ∃ ss' d',
    sessions (replay events a) !! sid = Some ss'
    ∧ ss' !! "data" = Some d'
    ∧ crs d' = crs d
    ∧ rows d'
      = rows d
        ++ (if logo (server a) && negb (gdf_empty (rows d))
            then (fun e => form_row e.2)
                   <$> filter (fun e => e.1 = sid ∧ submit e.2 = true) events
            else []).
Proof.
  revert a ss d. induction events as [|[sid0 w] events IH];
    intros a ss d Hss Hd.
  { exists ss, d. rewrite filter_nil. cbn.
    by destruct (_ && _); rewrite app_nil_r. }
  cbn [replay]. rewrite filter_cons. cbn [fst snd].
  assert (Hlogo : logo (server (interact sid0 w a).2) = logo (server a)).
  { destruct (initial_data (session_of sid0 a) (server a)) as [d0|] eqn:Hi0.
    - by rewrite (interact_available sid0 w a d0 Hi0).
    - by rewrite (interact_unavailable sid0 w a Hi0). }
  destruct (decide (sid0 = sid)) as [->|Hne].
  - assert (Hi : initial_data (session_of sid a) (server a) = Some d).
    { unfold initial_data. by rewrite (session_of_Some sid a ss Hss), Hd. }
    pose proof (interact_available sid w a d Hi) as Hrun.
    cbv zeta in Hrun.
    set (reached := logo (server a) && negb (gdf_empty (rows d)) && submit w)
      in *.
    set (d1 := if reached then concat d (mkGdf (crs d) [form_row w])
               else d) in *.
    destruct (IH (interact sid w a).2 (<["data" := d1]> (session_of sid a)) d1)
      as (ss' & d' & Hss' & Hd' & Hcrs & Hrows).
    { rewrite Hrun. cbn [sessions]. apply lookup_insert_eq. }
    { apply lookup_insert_eq. }
    exists ss', d'. split; [done|]. split; [done|].
    rewrite Hcrs, Hrows, Hlogo. subst d1 reached.
    destruct (logo (server a)); cbn [andb]; [|by rewrite app_nil_r].
    destruct (rows d) as [|r0 data0] eqn:Hrows0; cbn [gdf_empty negb andb].
    { rewrite Hrows0. cbn [gdf_empty negb]. by rewrite app_nil_r. }
    destruct (submit w).
    + rewrite decide_True by done. cbn [concat rows crs fmap list_fmap].
      rewrite Hrows0. cbn [app gdf_empty negb].
      split; [done|]. by rewrite <- app_assoc.
    + rewrite decide_False by (by intros [_ ?]). rewrite Hrows0. done.
  - rewrite decide_False by (by intros [? _]).
    destruct (IH (interact sid0 w a).2 ss d) as (ss' & d' & ? & ? & ? & Hr);
      [by rewrite interact_other_session | done |].
    exists ss', d'. by rewrite Hr, Hlogo.
Qed.

(** On a server without a readable file no session ever gets a page:
    every run stops at the load, and the server stays as it was. *)
Theorem missing_file_is_fatal events sid w :
  (interact sid w (replay events (boot (None : option (GeoDataFrame num))))).1
  = None
  ∧ server (replay events (boot (None : option (GeoDataFrame num))))
    = server (boot None).
Proof.
  assert (Hinv : ∀ evs (a : App num),
    server a = server (boot None) →
    (∀ sid ss, sessions a !! sid = Some ss → ss !! "data" = None) →
    server (replay evs a) = server (boot None)
    ∧ (∀ sid ss, sessions (replay evs a) !! sid = Some ss →
                 ss !! "data" = None)).
  { induction evs as [|[sid0 w0] evs IH]; intros a Hsrv Hss; [done|].
    assert (Hi : initial_data (session_of sid0 a) (server a) = None).
    { unfold initial_data, session_of. rewrite Hsrv.
      destruct (sessions a !! sid0) as [ss|] eqn:Hs; cbn.
      - by rewrite (Hss sid0 ss Hs).
      - by rewrite lookup_empty. }
    cbn [replay]. rewrite (interact_unavailable sid0 w0 a Hi).
    apply IH; cbn [snd server sessions]; [done|].
    intros sid1 ss1. destruct (decide (sid0 = sid1)) as [<-|Hne].
    - rewrite lookup_insert_eq. intros [= <-].
      unfold initial_data in Hi.
      by destruct (session_of sid0 a !! "data").
    - rewrite lookup_insert_ne by done. apply Hss. }
  destruct (Hinv events (boot None)) as [Hsrv Hss]; [done| |].
  { intros sid0 ss. cbn. by rewrite lookup_empty. }
  split; [|done].
  rewrite interact_unavailable; [done|].
  unfold initial_data, session_of. rewrite Hsrv.
  destruct (sessions _ !! sid) as [ss|] eqn:Hs; cbn.
  - by rewrite (Hss sid ss Hs).
  - by rewrite lookup_empty.
Qed.

(** ** One session alone on the server *)


End Coverage.

(** * The properties on sample data *)

Section Concrete.

Import Sample Scenario.

(** Two maize parcels and one rice parcel: the mean is taken per culture,
    over the yields of that culture in the order of the view. *)
Example groupby_mean_sample :
  groupby_mean [maize; rice; maize2]
  = [("maize", SeriesMean [Lit 1000; Lit 1500]);
     ("rice", SeriesMean [Lit 2000])].
Proof. reflexivity. Qed.

(** Two parcels, the region filter set to Kindia, both cultures
    selected. *)
Example filter_kindia :
  filtered_gdf (rows parcels) ["Kindia"] ["maize"; "rice"] = [maize].
Proof. reflexivity. Qed.

Example page_kindia :
  ∃ page,
    app only_kindia loaded online = Ok page loaded online
    ∧ map_layer page = [maize]
    ∧ metric_count page = 1
    ∧ metric_area page = Round2 (SeriesSum [Lit 2.0])
    ∧ chart page = Some [("maize", SeriesMean [Lit 1000])]
    ∧ warning page = None.
Proof. eexists. split; [vm_compute; reflexivity|]. by vm_compute. Qed.

(** The places where the script stops. *)
Example stops_at_load :
  app idle ∅ {| fs := None; cache := None; logo := true; writable := true |}
  = Raise DataUnavailable ∅
      {| fs := None; cache := None; logo := true; writable := true |}.
Proof. reflexivity. Qed.

Example stops_at_logo :
  app add_sorgho loaded no_logo = Raise LogoUnavailable loaded no_logo.
Proof. by vm_compute. Qed.

Example stops_at_region_column :
  raised (app idle ∅ {| fs := Some no_features; cache := None; logo := true;
                        writable := true |})
  = Some (KeyError "region").
Proof. by vm_compute. Qed.

Example stops_at_write :
  raised (app add_sorgho loaded read_only) = Some WriteFailed.
Proof. by vm_compute. Qed.

Example stops_at_map :
  raised (app no_region loaded online) = Some IndexError.
Proof. by vm_compute. Qed.

Lemma filter_empty_selection_witness :
  (([] : list string) = [] ∨ ["maize"; "rice"] = [])
  ∧ rows parcels ≠ []
  ∧ filtered_gdf (rows parcels) [] ["maize"; "rice"] = [].
Proof.
  split; [left; reflexivity|]. split; [discriminate|].
  apply filter_empty_selection. left. reflexivity.
Defined.

Lemma append_adds_one_record_witness :
  loaded !! "data" = Some parcels ∧ submit add_sorgho = true
  ∧ ∃ d' r,
      final_session (app add_sorgho loaded online) !! "data" = Some d'
      ∧ length (rows d') = 3
      ∧ rows d' !! 2 = Some r
      ∧ r = mkRow "sorgho" "Kindia" (Lit 3.5) (Lit 800) (Polygon coords_demo).
Proof.
  split; [reflexivity|]. split; [reflexivity|].
  destruct (append_adds_one_record add_sorgho loaded online parcels
              eq_refl eq_refl)
    as (d' & r & _ & Happ & Hlen & Hr & _ & Hc & Hg & Hs & Hy & Hgeo & _).
  exists d', r.
  split; [apply Happ; [reflexivity | discriminate]|].
  split; [exact Hlen|]. split; [exact Hr|].
  destruct r; cbn in Hc, Hg, Hs, Hy, Hgeo. by subst.
Defined.

Lemma append_preserves_existing_witness :
  loaded !! "data" = Some parcels ∧ submit add_sorgho = true
  ∧ ∃ d',
      final_session (app add_sorgho loaded online) !! "data" = Some d'
      ∧ rows d' !! 0 = Some maize
      ∧ rows d' !! 1 = Some rice
      ∧ rows d' !! 2 = Some (form_row add_sorgho).
Proof.
  split; [reflexivity|]. split; [reflexivity|].
  destruct (append_preserves_existing add_sorgho loaded online parcels
              eq_refl eq_refl)
    as (d' & _ & Happ & _ & _ & Hold & Hnew).
  exists d'.
  split; [apply Happ; [reflexivity | discriminate]|].
  split; [apply Hold; reflexivity|].
  split; [apply Hold; reflexivity|]. exact Hnew.
Defined.


(** Region Kindia and culture rice are both offered, but no parcel
    combines them: the view is empty and the run stops at the map. *)
Lemma empty_view_stops_before_metrics_witness :
  initial_data loaded online = Some parcels
  ∧ logo online = true ∧ rows parcels ≠ []
  ∧ submit kindia_rice = false
  ∧ filtered_gdf (rows parcels) ["Kindia"] ["rice"] = []
  ∧ raised (app kindia_rice loaded online) = Some IndexError
  ∧ rendered (app kindia_rice loaded online) = None.
Proof.
  assert (Hrows : rows parcels ≠ []) by discriminate.
  split; [reflexivity|]. split; [reflexivity|]. split; [exact Hrows|].
  split; [reflexivity|]. split; [reflexivity|].
  apply (empty_view_stops_before_metrics kindia_rice loaded online parcels
           eq_refl eq_refl Hrows).
  - intros Hs. discriminate Hs.
  - reflexivity.
Defined.

(** The region filter is cleared in a session that holds two parcels. *)
Lemma cleared_filter_stops_before_warning_witness :
  initial_data loaded online = Some parcels
  ∧ logo online = true ∧ rows parcels ≠ []
  ∧ submit no_region = false
  ∧ regions_ui no_region = Some []
  ∧ raised (app no_region loaded online) = Some IndexError
  ∧ rendered (app no_region loaded online) = None.
Proof.
  assert (Hrows : rows parcels ≠ []) by discriminate.
  split; [reflexivity|]. split; [reflexivity|]. split; [exact Hrows|].
  split; [reflexivity|]. split; [reflexivity|].
  apply (cleared_filter_stops_before_warning no_region loaded online parcels
           eq_refl eq_refl Hrows).
  - intros Hs. discriminate Hs.
  - left. reflexivity.
Defined.


Lemma new_value_hidden_until_rerun_witness :
  loaded !! "data" = Some parcels ∧ submit add_sorgho = true
  ∧ (region_new add_sorgho ∉ map region (rows parcels)
     ∨ culture_new add_sorgho ∉ map culture (rows parcels))
  ∧ ∃ page ss' srv',
      app add_sorgho loaded online = Ok page ss' srv'
      ∧ culture_options page = ["maize"; "rice"]
      ∧ (form_row add_sorgho ∉ map_layer page)
      ∧ metric_count page = 2
      ∧ ∃ page2 ss2 srv2,
          app idle ss' srv' = Ok page2 ss2 srv2
          ∧ form_row add_sorgho ∈ map_layer page2.
Proof.
  assert (Hnew : region_new add_sorgho ∉ map region (rows parcels)
                 ∨ culture_new add_sorgho ∉ map culture (rows parcels)).
  { right. cbn. rewrite !elem_of_cons.
    intros [E|[E|E%not_elem_of_nil]];
      [discriminate E | discriminate E | exact E]. }
  assert (Hrows : rows parcels ≠ []) by discriminate.
  split; [reflexivity|]. split; [reflexivity|]. split; [exact Hnew|].
  destruct (new_value_hidden_until_rerun add_sorgho loaded online parcels
              eq_refl eq_refl Hnew) as (Hpage & Hdone & Hlater).
  destruct (app (released add_sorgho) loaded online)
    as [page0 ss0 srv0 | e ss0 srv0] eqn:Hrun0;
    [|vm_compute in Hrun0; discriminate Hrun0].
  destruct (Hdone eq_refl page0 ss0 srv0 eq_refl)
    as (page & ss' & srv' & Hrun).
  destruct (Hpage page ss' srv' Hrun)
    as (_ & Hopts & _ & _ & Hout & page1 & Hrun1 & _ & Hcount & _).
  destruct (Hlater eq_refl Hrows idle eq_refl) as [_ Hdefault].
  destruct (Hdefault eq_refl eq_refl) as (page2 & ss2 & srv2 & Hrun2 & Hin).
  rewrite Hrun in Hrun2. cbn [final_session final_server] in Hrun2.
  exists page, ss', srv'. split; [exact Hrun|].
  split; [exact Hopts|]. split; [exact Hout|].
  split; [|by exists page2, ss2, srv2].
  rewrite Hcount. injection Hrun1 as <- _ _.
  vm_compute in Hrun0. by injection Hrun0 as <- _ _.
Defined.

(** ** Two sessions on one server *)

(** The new session is served the memoised first load: it holds the two
    original parcels while the file holds three. *)
Example new_session_is_served_the_first_load :
  let a := replay reopened (boot (Some parcels)) in
  (rows <$> fs (server a))
  = Some [stored_row maize; stored_row rice; stored_row (form_row add_sorgho)]
  ∧ (rows <$> (session_of 1 a !! "data")) = Some [maize; rice]
  ∧ (rows <$> (session_of 0 a !! "data"))
    = Some [maize; rice; form_row add_sorgho].
Proof. by vm_compute. Qed.


End Concrete.

(** * The further properties on sample data *)

Section CoverageSamples.

Import Sample Scenario.

(** A submission made while the logo cannot be opened never reaches the
    handler: the session holds what it held. *)
Example submission_without_logo_is_not_appended :
  final_session (app add_sorgho loaded no_logo) = loaded
  ∧ final_server (app add_sorgho loaded no_logo) = no_logo.
Proof. by vm_compute. Qed.

(** Hence the records a session has submitted are not always in its
    collection: without the condition on the logo and on the collection,
    the history of a session does not determine what it holds. *)
Example submission_history_needs_reached_handler :
  ¬ (∀ sid events (a : App Number) ss d,
       sessions a !! sid = Some ss → ss !! "data" = Some d →
       ∃ ss' d',
         sessions (replay events a) !! sid = Some ss'
         ∧ ss' !! "data" = Some d'
         ∧ rows d'
           = rows d
             ++ ((fun e => form_row e.2)
                   <$> filter (fun e => e.1 = sid ∧ submit e.2 = true)
                         events)).
Proof.
  intros Hall.
  destruct (Hall 0 [(0, add_sorgho)]
              {| server := no_logo; sessions := {[ 0 := loaded ]} |}
              loaded parcels (lookup_singleton_eq _ _) eq_refl)
    as (ss' & d' & Hss' & Hd' & Hrows).
  vm_compute in Hss'. injection Hss' as <-.
  vm_compute in Hd'. injection Hd' as <-.
  vm_compute in Hrows. discriminate Hrows.
Qed.

Lemma viewing_never_writes_witness :
  submit only_kindia = false
  ∧ fs (final_server (app only_kindia loaded online)) = fs online
  ∧ final_session (app only_kindia loaded online) = loaded
  ∧ final_server (app only_kindia loaded online) = online.
Proof.
  split; [reflexivity|].
  destruct (viewing_never_writes only_kindia loaded online eq_refl)
    as [Hfs Hsame].
  split; [exact Hfs|]. apply Hsame. exists parcels. reflexivity.
Defined.

Lemma open_session_ignores_file_witness :
  loaded !! "data" = Some parcels
  ∧ logo online = logo file_gone
  ∧ rendered (app idle loaded online) = rendered (app idle loaded file_gone)
  ∧ raised (app idle loaded online) = raised (app idle loaded file_gone)
  ∧ final_session (app idle loaded online)
    = final_session (app idle loaded file_gone).
Proof.
  split; [reflexivity|]. split; [reflexivity|].
  apply (open_session_ignores_file idle loaded parcels online file_gone
           eq_refl eq_refl).
  intros Hs. discriminate Hs.
Defined.

Lemma new_session_gets_memoised_frame_witness :
  (∅ : gmap string (GeoDataFrame Number)) !! "data" = None
  ∧ cache file_gone = Some parcels
  ∧ cache (final_server (app idle ∅ file_gone)) = Some parcels
  ∧ final_session (app idle ∅ file_gone) !! "data" = Some parcels.
Proof.
  split; [apply lookup_empty|]. split; [reflexivity|].
  destruct (new_session_gets_memoised_frame idle ∅ file_gone parcels
              (lookup_empty _) eq_refl)
    as (Hc & (d' & Hd' & _ & Hsame) & _).
  split; [exact Hc|]. rewrite Hd'. f_equal. exact (Hsame eq_refl).
Defined.

Lemma filter_options_distinct_and_complete_witness :
  initial_data loaded online = Some parcels
  ∧ ∃ page ss' srv',
      app only_kindia loaded online = Ok page ss' srv'
      ∧ NoDup (region_options page)
      ∧ "Mamou" ∈ region_options page
      ∧ (∀ v, v ∈ region_selected page → v ∈ region_options page).
Proof.
  split; [reflexivity|].
  destruct (app only_kindia loaded online)
    as [page ss' srv' | e ss' srv'] eqn:Hrun;
    [|vm_compute in Hrun; discriminate Hrun].
  destruct (filter_options_distinct_and_complete only_kindia loaded online
              parcels page ss' srv' eq_refl Hrun)
    as (Hnd & _ & Hro & _ & Hsel & _).
  exists page, ss', srv'. split; [reflexivity|]. split; [exact Hnd|].
  split; [|exact Hsel].
  apply Hro. exists rice. split; [|reflexivity].
  apply elem_of_cons. right. apply elem_of_cons. left. reflexivity.
Defined.

Lemma untouched_filters_show_everything_witness :
  initial_data loaded online = Some parcels
  ∧ logo online = true ∧ rows parcels ≠ []
  ∧ regions_ui idle = None ∧ cultures_ui idle = None ∧ submit idle = false
  ∧ ∃ page ss' srv',
      app idle loaded online = Ok page ss' srv'
      ∧ map_layer page = [maize; rice]
      ∧ metric_count page = 2.
Proof.
  assert (Hrows : rows parcels ≠ []) by discriminate.
  split; [reflexivity|]. split; [reflexivity|]. split; [exact Hrows|].
  do 3 (split; [reflexivity|]).
  destruct (untouched_filters_show_everything idle loaded online parcels
              eq_refl eq_refl Hrows eq_refl eq_refl eq_refl)
    as (page & ss' & srv' & Hrun & Hmap & Hcount & _).
  exists page, ss', srv'. split; [exact Hrun|].
  split; [exact Hmap | exact Hcount].
Defined.

Lemma view_is_part_of_collection_witness :
  initial_data loaded online = Some parcels
  ∧ ∃ page ss' srv' d',
      app only_kindia loaded online = Ok page ss' srv'
      ∧ ss' !! "data" = Some d'
      ∧ map_layer page `sublist_of` rows d'
      ∧ (1 ≤ metric_count page ≤ length (rows d'))%nat.
Proof.
  split; [reflexivity|].
  destruct (app only_kindia loaded online)
    as [page ss' srv' | e ss' srv'] eqn:Hrun;
    [|vm_compute in Hrun; discriminate Hrun].
  destruct (view_is_part_of_collection only_kindia loaded online parcels
              page ss' srv' eq_refl Hrun) as (d' & Hview).
  exists page, ss', srv', d'. split; [reflexivity | exact Hview].
Defined.

Lemma metrics_of_rendered_view_witness :
  ∃ page ss' srv',
    app only_kindia loaded online = Ok page ss' srv'
    ∧ metric_count page = 1
    ∧ metric_area page = Round2 (SeriesSum [Lit 2.0]).
Proof.
  destruct (app only_kindia loaded online)
    as [page ss' srv' | e ss' srv'] eqn:Hrun;
    [|vm_compute in Hrun; discriminate Hrun].
  destruct (metrics_of_rendered_view only_kindia loaded online page ss' srv'
              Hrun) as (d' & _ & _ & Hcount & Harea).
  exists page, ss', srv'. split; [reflexivity|].
  rewrite Hcount, Harea. evaluate Hrun. split; reflexivity.
Defined.

Lemma submitted_record_shown_iff_selected_witness :
  loaded !! "data" = Some parcels
  ∧ submit add_maize = true ∧ submit add_maize_rice_only = true
  ∧ (∃ page ss' srv',
       app add_maize loaded online = Ok page ss' srv'
       ∧ map_layer page = [maize; rice; form_row add_maize])
  ∧ (∃ page ss' srv',
       app add_maize_rice_only loaded online = Ok page ss' srv'
       ∧ map_layer page = [rice]
       ∧ ¬ (region_new add_maize_rice_only ∈ region_selected page
            ∧ culture_new add_maize_rice_only ∈ culture_selected page)).
Proof.
  do 3 (split; [reflexivity|]). split.
  - destruct (app add_maize loaded online)
      as [page ss' srv' | e ss' srv'] eqn:Hrun;
      [|vm_compute in Hrun; discriminate Hrun].
    destruct (submitted_record_shown_iff_selected add_maize loaded online
                parcels page ss' srv' eq_refl eq_refl Hrun) as [Hmap _].
    exists page, ss', srv'. split; [reflexivity|].
    rewrite Hmap. evaluate Hrun. reflexivity.
  - destruct (app add_maize_rice_only loaded online)
      as [page ss' srv' | e ss' srv'] eqn:Hrun;
      [|vm_compute in Hrun; discriminate Hrun].
    destruct (submitted_record_shown_iff_selected add_maize_rice_only loaded
                online parcels page ss' srv' eq_refl eq_refl Hrun)
      as [Hmap Hiff].
    exists page, ss', srv'. split; [reflexivity|].
    split; [rewrite Hmap; evaluate Hrun; reflexivity|].
    intros Hsel. apply Hiff in Hsel. evaluate Hrun. cbn in Hsel.
    apply elem_of_cons in Hsel as [Hsel|Hsel]; [discriminate Hsel|].
    by apply not_elem_of_nil in Hsel.
Defined.

(** The form is submitted with the region filter cleared. *)
Lemma submission_with_empty_view_is_saved_witness :
  loaded !! "data" = Some parcels ∧ submit add_sorgho_no_region = true
  ∧ logo online = true ∧ rows parcels ≠ [] ∧ writable online = true
  ∧ rendered (app add_sorgho_no_region loaded online) = None
  ∧ (rows <$> final_session (app add_sorgho_no_region loaded online)
                !! "data")
    = Some [maize; rice; form_row add_sorgho_no_region]
  ∧ (rows <$> fs (final_server (app add_sorgho_no_region loaded online)))
    = Some [stored_row maize; stored_row rice;
            stored_row (form_row add_sorgho_no_region)].
Proof.
  assert (Hrows : rows parcels ≠ []) by discriminate.
  split; [reflexivity|]. split; [reflexivity|]. split; [reflexivity|].
  split; [exact Hrows|]. split; [reflexivity|].
  rewrite (submission_with_empty_view_is_saved add_sorgho_no_region loaded
             online parcels eq_refl eq_refl eq_refl Hrows eq_refl eq_refl).
  cbn [rendered final_session final_server fs].
  split; [reflexivity|]. split; [|reflexivity].
  rewrite lookup_insert_eq. reflexivity.
Defined.

Lemma failed_write_leaves_record_in_session_only_witness :
  loaded !! "data" = Some parcels ∧ submit add_sorgho = true
  ∧ logo read_only = true ∧ rows parcels ≠ [] ∧ writable read_only = false
  ∧ raised (app add_sorgho loaded read_only) = Some WriteFailed
  ∧ (rows <$> final_session (app add_sorgho loaded read_only) !! "data")
    = Some [maize; rice; form_row add_sorgho]
  ∧ final_server (app add_sorgho loaded read_only) = read_only.
Proof.
  assert (Hrows : rows parcels ≠ []) by discriminate.
  split; [reflexivity|]. split; [reflexivity|]. split; [reflexivity|].
  split; [exact Hrows|]. split; [reflexivity|].
  rewrite (failed_write_leaves_record_in_session_only add_sorgho loaded
             read_only parcels eq_refl eq_refl eq_refl Hrows eq_refl).
  cbn [raised final_session final_server].
  split; [reflexivity|]. split; [|reflexivity].
  rewrite lookup_insert_eq. reflexivity.
Defined.

Lemma export_is_rectangular_witness :
  ∃ page ss' srv',
    app idle loaded online = Ok page ss' srv'
    ∧ length (download page) = 3
    ∧ Forall (fun line => length line = 4) (download page).
Proof.
  destruct (app idle loaded online)
    as [page ss' srv' | e ss' srv'] eqn:Hrun;
    [|vm_compute in Hrun; discriminate Hrun].
  destruct (export_is_rectangular idle loaded online page ss' srv' Hrun)
    as (Hlen & _ & Hrect).
  exists page, ss', srv'. split; [reflexivity|].
  evaluate Hrun. split; [exact Hlen | exact Hrect].
Defined.

Lemma filter_selection_as_set_witness :
  (∀ v, v ∈ ["Kindia"; "Mamou"] ↔ v ∈ ["Mamou"; "Kindia"; "Mamou"])
  ∧ (∀ v, v ∈ ["rice"] ↔ v ∈ ["rice"; "rice"])
  ∧ filtered_gdf (rows parcels) ["Kindia"; "Mamou"] ["rice"]
    = filtered_gdf (rows parcels) ["Mamou"; "Kindia"; "Mamou"]
        ["rice"; "rice"].
Proof.
  assert (HR : ∀ v : string,
            v ∈ ["Kindia"; "Mamou"] ↔ v ∈ ["Mamou"; "Kindia"; "Mamou"]).
  { intros v. rewrite !elem_of_cons. tauto. }
  assert (HC : ∀ v : string, v ∈ ["rice"] ↔ v ∈ ["rice"; "rice"]).
  { intros v. rewrite !elem_of_cons. tauto. }
  split; [exact HR|]. split; [exact HC|].
  exact (filter_selection_as_set (rows parcels) _ _ _ _ HR HC).
Defined.

Lemma chart_bars_partition_view_witness :
  ∃ page ss' srv',
    app add_maize loaded online = Ok page ss' srv'
    ∧ chart page = Some [("maize", SeriesMean [Lit 1000; Lit 900]);
                         ("rice", SeriesMean [Lit 2000])]
    ∧ warning page = None
    ∧ metric_count page = 3.
Proof.
  destruct (app add_maize loaded online)
    as [page ss' srv' | e ss' srv'] eqn:Hrun;
    [|vm_compute in Hrun; discriminate Hrun].
  destruct (chart_bars_partition_view add_maize loaded online page ss' srv'
              Hrun)
    as (bars & Hchart & Hwarn & _ & _ & _ & _ & Hsum & _).
  exists page, ss', srv'. split; [reflexivity|].
  split; [|split; [exact Hwarn|]].
  - evaluate Hrun. reflexivity.
  - rewrite <- Hsum. evaluate Hrun. injection Hchart as <-. reflexivity.
Defined.

Lemma memo_is_the_first_load_witness :
  reopened ≠ []
  ∧ cache (server (replay reopened (boot (Some parcels)))) = Some parcels.
Proof.
  assert (Hne : reopened ≠ []) by discriminate.
  split; [exact Hne|]. exact (memo_is_the_first_load parcels reopened Hne).
Defined.

Lemma session_holds_its_own_submissions_witness :
  sessions (replay both_open (boot (Some parcels))) !! 1 = Some loaded
  ∧ loaded !! "data" = Some parcels
  ∧ ∃ ss' d',
      sessions (replay busy (replay both_open (boot (Some parcels)))) !! 1
      = Some ss'
      ∧ ss' !! "data" = Some d'
      ∧ rows d' = [maize; rice; form_row add_fonio; form_row add_maize].
Proof.
  assert (Hs : sessions (replay both_open (boot (Some parcels))) !! 1
               = Some loaded) by (vm_compute; reflexivity).
  split; [exact Hs|]. split; [reflexivity|].
  destruct (session_holds_its_own_submissions 1 busy _ loaded parcels
              Hs eq_refl)
    as (ss' & d' & Hss' & Hd' & _ & Hrows).
  exists ss', d'. split; [exact Hss'|]. split; [exact Hd'|].
  rewrite Hrows. reflexivity.
Defined.


End CoverageSamples.
